(** * Pubmedapi_fetcher: the record extraction and the tabular writers

    A shallow embedding of [get_paper.py] and [cli.py].  The program is a
    linear pipeline (search, fetch, parse, write); the embedding follows the
    source function by function and keeps its names.

    Conventions.
    - A Python [str] is a Rocq [string], one character per code point; the
      tables for [str.lower] and for the white space of [str.split] and
      [str.strip] are those of Python for code points below 256.
    - A value that may be [None] is an [option]; a [dict] is an association
      list in insertion order (the order of the keys is what the writers
      depend on).
    - An exception that the program does not catch is a [Raise] of the
      [result] type; the console, the requests sent and the files are the
      fields of an explicit [World]. *)

From Stdlib Require Import String Ascii List Bool Arith ZArith Lia DecimalString.
Import ListNotations.
Set Warnings "-register-all".
Open Scope string_scope.
Open Scope list_scope.

(** String concatenation, kept apart from the [++] of lists. *)
Infix "+:+" := String.append (at level 60, right associativity).

(** ** Python strings *)

Module Str.

(** [c.isspace()] for a code point below 256: TAB..CR, FS..US, space, NEL and
    the no-break space. *)
Definition isspace (c : ascii) : bool :=
  let n := nat_of_ascii c in
  (((9 <=? n) && (n <=? 13)) || ((28 <=? n) && (n <=? 32))
   || (n =? 133) || (n =? 160))%nat.

(** [c.lower()] for a code point below 256: A..Z and the Latin-1 capitals
    (all of 192..222 but the multiplication sign) move up by 32. *)
Definition lower_char (c : ascii) : ascii :=
  let n := nat_of_ascii c in
  if (((65 <=? n) && (n <=? 90))
      || ((192 <=? n) && (n <=? 222) && negb (n =? 215)))%nat
  then ascii_of_nat (n + 32) else c.

Fixpoint lower (s : string) : string :=
  match s with
  | EmptyString => EmptyString
  | String c r => String (lower_char c) (lower r)
  end.

Definition is_empty (s : string) : bool :=
  match s with EmptyString => true | String _ _ => false end.

(** [s.startswith(p)] *)
Fixpoint startswith (p s : string) : bool :=
  match p, s with
  | EmptyString, _ => true
  | String c p', String d s' => Ascii.eqb c d && startswith p' s'
  | String _ _, EmptyString => false
  end.

(** [sub in s]: [sub] starts at some position of [s]. *)
Fixpoint contains (sub s : string) : bool :=
  startswith sub s ||
  match s with
  | EmptyString => false
  | String _ r => contains sub r
  end.

(** [s.split()]: the scan of CPython's [split_whitespace]; [tok] is the token
    being read. *)
Fixpoint split_from (tok s : string) : list string :=
  match s with
  | EmptyString => if is_empty tok then [] else [tok]
  | String c r =>
      if isspace c
      then (if is_empty tok then split_from "" r else tok :: split_from "" r)
      else split_from (tok +:+ String c "") r
  end.

Definition split (s : string) : list string := split_from "" s.

Fixpoint lstrip (s : string) : string :=
  match s with
  | EmptyString => EmptyString
  | String c r => if isspace c then lstrip r else s
  end.

Fixpoint rstrip (s : string) : string :=
  match s with
  | EmptyString => EmptyString
  | String c r =>
      let r' := rstrip r in
      if isspace c && is_empty r' then EmptyString else String c r'
  end.

(** [s.strip()] *)
Definition strip (s : string) : string := rstrip (lstrip s).

(** [sep.join(l)] *)
Definition join (sep : string) (l : list string) : string := String.concat sep l.

(** [str(n)] for a length *)
Definition of_nat (n : nat) : string := NilEmpty.string_of_uint (Nat.to_uint n).

End Str.

(** ** Exceptions *)

Inductive exn : Type :=
| ParseError        (* xml.etree.ElementTree.ParseError *)
| TypeError
| IndexError
| ValueError
| AttributeError
| CsvError          (* csv.Error, of the reader *)
| OSError.          (* of [open], for a name that cannot be opened *)

Inductive result (A : Type) : Type :=
| Ok (a : A)
| Raise (e : exn).
Arguments Ok {A} a.
Arguments Raise {A} e.

Definition bind {A B} (m : result A) (k : A -> result B) : result B :=
  match m with
  | Ok a => k a
  | Raise e => Raise e
  end.

Notation "x <- m ;; k" := (bind m (fun x => k))
  (at level 61, m at next level, right associativity).

(** A [for] loop whose body may raise: the first exception ends the loop. *)
Fixpoint for_each {A S} (body : S -> A -> result S) (l : list A) (s : S)
  : result S :=
  match l with
  | [] => Ok s
  | x :: l' => s' <- body s x ;; for_each body l' s'
  end.

(** ** xml.etree.ElementTree *)

(** An element as the program reads it: its tag, its text ([None] when the
    element has no character data before its first child) and its children.
    Attributes and tails are never read. *)
Inductive Element : Type :=
| Elem (tag : string) (text : option string) (children : list Element).

Module ET.

Definition tag (e : Element) : string := let 'Elem t _ _ := e in t.
Definition text (e : Element) : option string := let 'Elem _ x _ := e in x.
Definition children (e : Element) : list Element := let 'Elem _ _ cs := e in cs.

(** [e.iter()]: the element and everything beneath it, in document order. *)
Fixpoint iter (e : Element) : list Element :=
  match e with
  | Elem _ _ cs => e :: flat_map iter cs
  end.

Definition has_tag (t : string) (e : Element) : bool := String.eqb (tag e) t.

(** The step [//t] of a path: the elements beneath [e] with tag [t];
    [e] itself is left out. *)
Definition descendants (t : string) (e : Element) : list Element :=
  filter (has_tag t) (flat_map iter (children e)).

(** The step [/t] of a path: the children of [e] with tag [t]. *)
Definition child_elems (t : string) (e : Element) : list Element :=
  filter (has_tag t) (children e).

(** [e.findall(".//t")] *)
Definition findall_desc (t : string) (e : Element) : list Element :=
  descendants t e.

(** [e.find(".//t")] *)
Definition find_desc (t : string) (e : Element) : option Element :=
  hd_error (descendants t e).

(** [e.find(".//t/u")] *)
Definition find_desc_child (t u : string) (e : Element) : option Element :=
  hd_error (flat_map (child_elems u) (descendants t e)).

(** What [findtext] returns for the element found: an element without text
    gives the empty string. *)
Definition text_or_empty (e : Element) : string :=
  match text e with
  | Some s => s
  | None => ""
  end.

(** [e.findtext(".//t")], the default being [None]. *)
Definition findtext_desc (t : string) (e : Element) : option string :=
  option_map text_or_empty (find_desc t e).

(** [e.findtext(t, default)] for a plain tag: the first child with that tag. *)
Definition findtext (t : string) (default : string) (e : Element) : string :=
  match hd_error (child_elems t e) with
  | Some c => text_or_empty c
  | None => default
  end.

End ET.

(** ** get_paper.py: parse_paper_details *)

(** A Python [dict] with string keys, in insertion order. *)
Definition dict (V : Type) : Type := list (string * V).

Fixpoint dict_set {V} (d : dict V) (k : string) (v : V) : dict V :=
  match d with
  | [] => [(k, v)]
  | (k', v') :: d' =>
      if String.eqb k' k then (k', v) :: d' else (k', v') :: dict_set d' k v
  end.

Fixpoint dict_get {V} (d : dict V) (k : string) : option V :=
  match d with
  | [] => None
  | (k', v) :: d' => if String.eqb k' k then Some v else dict_get d' k
  end.

Definition dict_keys {V} (d : dict V) : list string := map fst d.

(** A record of the output: every value is a [str] or [None]. *)
Definition paper : Type := dict (option string).

(** The four lists that the loop over the authors fills. *)
Record author_lists : Type := {
  authors : list string;
  non_academic_authors : list string;
  company_affiliations : list string;
  emails : list string
}.

Definition no_authors : author_lists :=
  {| authors := []; non_academic_authors := [];
     company_affiliations := []; emails := [] |}.

Definition keywords : list string := ["company"; "pharma"; "biotech"].

(** [any(keyword in text.lower() for keyword in keywords)] *)
Definition any_keyword (affiliation_text : string) : bool :=
  existsb (fun keyword => Str.contains keyword (Str.lower affiliation_text))
          keywords.

(** [l[-1]] *)
Definition last_item {A} (l : list A) : result A :=
  match rev l with
  | x :: _ => Ok x
  | [] => Raise IndexError
  end.

Definition fullname_of (author : Element) : string :=
  let lastname := ET.findtext "LastName" "" author in
  let firstname := ET.findtext "ForeName" "" author in
  Str.strip (firstname +:+ " " +:+ lastname).

(** The body of [for author in article.findall(".//Author")]. *)
Definition author_body (st : author_lists) (author : Element)
  : result author_lists :=
  let fullname := fullname_of author in
  let st1 := {| authors := authors st ++ [fullname];
                non_academic_authors := non_academic_authors st;
                company_affiliations := company_affiliations st;
                emails := emails st |} in
  match ET.find_desc_child "AffiliationInfo" "Affiliation" author with
  | None => Ok st1
  | Some affiliation =>
      match ET.text affiliation with
      | None => Raise TypeError          (* ["@" in None] *)
      | Some affiliation_text =>
          emails1 <-
            (if Str.contains "@" affiliation_text
             then (e <- last_item (Str.split affiliation_text) ;;
                   Ok (emails st1 ++ [e]))
             else Ok (emails st1)) ;;
          if any_keyword affiliation_text
          then Ok {| authors := authors st1;
                     non_academic_authors :=
                       non_academic_authors st1 ++ [fullname];
                     company_affiliations :=
                       company_affiliations st1 ++ [affiliation_text];
                     emails := emails1 |}
          else Ok {| authors := authors st1;
                     non_academic_authors := non_academic_authors st1;
                     company_affiliations := company_affiliations st1;
                     emails := emails1 |}
      end
  end.

Definition publication_date (article : Element) : string :=
  match ET.find_desc "PubDate" article with
  | Some pub_date =>
      let year := ET.findtext "Year" "" pub_date in
      let month := ET.findtext "Month" "" pub_date in
      let day := ET.findtext "Day" "" pub_date in
      if Str.is_empty year then "Unknown"
      else year +:+ "-" +:+ month +:+ "-" +:+ day
  | None => "Unknown"
  end.

(** The body of [for article in root.findall(".//PubmedArticle")]: the record
    of one article. *)
Definition parse_article (article : Element) : result paper :=
  let paper0 : paper := [] in
  let paper1 := dict_set paper0 "PubMedID" (ET.findtext_desc "PMID" article) in
  let paper2 := dict_set paper1 "Title"
                  (ET.findtext_desc "ArticleTitle" article) in
  let paper3 := dict_set paper2 "Publication Date"
                  (Some (publication_date article)) in
  st <- for_each author_body (ET.findall_desc "Author" article) no_authors ;;
  let paper4 := dict_set paper3 "Authors" (Some (Str.join ", " (authors st))) in
  let paper5 := dict_set paper4 "Non-academic Authors"
                  (Some (Str.join ", " (non_academic_authors st))) in
  let paper6 := dict_set paper5 "Company Affiliations"
                  (Some (Str.join "; " (company_affiliations st))) in
  let paper7 := dict_set paper6 "Email"
                  (Some (match emails st with
                         | e :: _ => e
                         | [] => "Not Available"
                         end)) in
  Ok paper7.

(** The loop over the articles of a parsed document. *)
Definition parse_root (root : Element) : result (list paper) :=
  for_each (fun papers article =>
              p <- parse_article article ;; Ok (papers ++ [p]))
           (ET.findall_desc "PubmedArticle" root) [].

Section Parse.

(** [ET.fromstring]: the XML parser of the library; [None] stands for the
    [ParseError] it raises on a document that is not well formed. *)
Variable fromstring : string -> option Element.

Definition parse_paper_details (xml_data : string) : result (list paper) :=
  match fromstring xml_data with
  | None => Raise ParseError
  | Some root => parse_root root
  end.

End Parse.

(** ** The world outside the program *)

(** A value of a query parameter of a request. *)
Inductive param : Type :=
| PStr (s : string)
| PInt (n : Z).

Record request : Type := {
  url : string;
  params : list (string * param)
}.

Record World : Type := {
  stdout : list string;                 (* the lines printed, oldest first *)
  requests : list request;              (* the requests sent, oldest first *)
  files : string -> option string       (* the files, by name *)
}.

(** A computation that reads and changes the world and may raise; the world
    reached when it raises is kept (what was printed and written stays). *)
Definition M (A : Type) : Type := World -> result A * World.

Definition ret {A} (a : A) : M A := fun w => (Ok a, w).
Definition throw {A} (e : exn) : M A := fun w => (Raise e, w).

Definition bindM {A B} (m : M A) (k : A -> M B) : M B :=
  fun w =>
    match m w with
    | (Ok a, w') => k a w'
    | (Raise e, w') => (Raise e, w')
    end.

Notation "x <~ m ;; k" := (bindM m (fun x => k))
  (at level 61, m at next level, right associativity).
Notation "m ;;; k" := (bindM m (fun _ => k))
  (at level 61, right associativity).

Definition lift {A} (r : result A) : M A := fun w => (r, w).

(** [print(line)] *)
Definition print (line : string) : M unit :=
  fun w => (Ok tt, {| stdout := stdout w ++ [line];
                      requests := requests w;
                      files := files w |}).

Definition set_file (name content : string) (fs : string -> option string)
  : string -> option string :=
  fun n => if String.eqb n name then Some content else fs n.

(** [open(filename, "w", ...)].  Whether a name can be opened for writing
    is for the system to say ([can_open]): the empty name cannot, nor can a
    name in a directory that is not there.  A file that is opened is
    created, or emptied if it is there; for a name that cannot be opened
    OSError is raised and nothing is written. *)
Definition open_w (can_open : string -> bool) (filename : string) : M unit :=
  fun w =>
    if can_open filename
    then (Ok tt, {| stdout := stdout w;
                    requests := requests w;
                    files := set_file filename "" (files w) |})
    else (Raise OSError, w).

(** [file.write(data)] on the file opened as [filename]. *)
Definition file_write (filename data : string) : M unit :=
  fun w =>
    let old := match files w filename with Some c => c | None => "" end in
    (Ok tt, {| stdout := stdout w;
               requests := requests w;
               files := set_file filename (old +:+ data) (files w) |}).

(** A [for] loop in [M]. *)
Fixpoint for_eachM {A} (body : A -> M unit) (l : list A) : M unit :=
  match l with
  | [] => ret tt
  | x :: l' => body x ;;; for_eachM body l'
  end.

(** ** The csv module: the writer of the excel dialect *)

Module Csv.

Definition delimiter : ascii := ","%char.
Definition quotechar : ascii := "034"%char.
Definition CR : ascii := "013"%char.
Definition LF : ascii := "010"%char.
Definition lineterminator : string := String CR (String LF "").

(** The characters for which QUOTE_MINIMAL quotes the field. *)
Definition special (c : ascii) : bool :=
  Ascii.eqb c delimiter || Ascii.eqb c quotechar
  || Ascii.eqb c CR || Ascii.eqb c LF.

Fixpoint needs_quotes (field : string) : bool :=
  match field with
  | EmptyString => false
  | String c r => special c || needs_quotes r
  end.

(** The field with every quote character doubled. *)
Fixpoint double_quotes (field : string) : string :=
  match field with
  | EmptyString => EmptyString
  | String c r =>
      if Ascii.eqb c quotechar
      then String quotechar (String quotechar (double_quotes r))
      else String c (double_quotes r)
  end.

Definition quoted (field : string) : string :=
  String quotechar (double_quotes field +:+ String quotechar "").

Definition write_field (field : string) : string :=
  if needs_quotes field then quoted field else field.

(** What the writer makes of a value: [None] is written as the empty
    field. *)
Definition field_of (v : option string) : string :=
  match v with
  | Some s => s
  | None => ""
  end.

Fixpoint join_fields (fields : list string) : string :=
  match fields with
  | [] => ""
  | [f] => write_field f
  | f :: fs => write_field f +:+ String delimiter (join_fields fs)
  end.

(** [writer.writerow(row)]: the line written.  A record of one empty field
    is written as a pair of quotes. *)
Definition format_row (row : list (option string)) : string :=
  let rec := join_fields (map field_of row) in
  (if (negb (Nat.eqb (length row) 0)) && Str.is_empty rec
   then quoted "" else rec) +:+ lineterminator.

(** The text that writing the rows one after the other gives. *)
Fixpoint format_rows (rows : list (list (option string))) : string :=
  match rows with
  | [] => ""
  | row :: rows' => format_row row +:+ format_rows rows'
  end.

End Csv.

(** [csv.DictWriter] with its defaults: [restval=""],
    [extrasaction="raise"]. *)
Module DictWriter.

Definition mem (k : string) (l : list string) : bool :=
  existsb (String.eqb k) l.

(** [_dict_to_list]: a key of the row that is no field name raises
    [ValueError]; a field name that the row lacks is written as [restval]. *)
Definition dict_to_list (fieldnames : list string) (rowdict : paper)
  : result (list (option string)) :=
  if existsb (fun k => negb (mem k fieldnames)) (dict_keys rowdict)
  then Raise ValueError
  else Ok (map (fun key => match dict_get rowdict key with
                           | Some v => v
                           | None => Some ""
                           end) fieldnames).

Definition writerow (filename : string) (fieldnames : list string)
  (rowdict : paper) : M unit :=
  row <~ lift (dict_to_list fieldnames rowdict) ;;
  file_write filename (Csv.format_row row).

(** [writeheader]: the row that maps every field name to itself. *)
Definition writeheader (filename : string) (fieldnames : list string)
  : M unit :=
  writerow filename fieldnames (map (fun k => (k, Some k)) fieldnames).

Definition writerows (filename : string) (fieldnames : list string)
  (rowdicts : list paper) : M unit :=
  for_eachM (writerow filename fieldnames) rowdicts.

End DictWriter.

(** ** The two writers *)

Module GetPaper.

Definition keys : list string :=
  ["PubMedID"; "Title"; "Publication Date"; "Authors";
   "Non-academic Authors"; "Company Affiliations"; "Email"].

(** get_paper.py, [save_to_csv] *)
Definition save_to_csv (can_open : string -> bool)
  (parsed_data : list paper) (filename : string) : M unit :=
  match parsed_data with
  | [] => print "No data to save."
  | _ :: _ =>
      open_w can_open filename ;;;
      DictWriter.writeheader filename keys ;;;
      DictWriter.writerows filename keys parsed_data ;;;
      print ("Data saved to " +:+ filename)
  end.

End GetPaper.

Module Cli.

(** cli.py, [save_to_csv] *)
Definition save_to_csv (can_open : string -> bool)
  (parsed_data : list paper) (filename : string) : M unit :=
  match parsed_data with
  | [] => print "No data to save."
  | first :: _ =>
      let keys := dict_keys first in
      open_w can_open filename ;;;
      DictWriter.writeheader filename keys ;;;
      DictWriter.writerows filename keys parsed_data ;;;
      print ("Data saved to " +:+ filename)
  end.

End Cli.

(** The lines that the two writers have in common, once the columns are
    chosen. *)
Definition write_table (can_open : string -> bool) (keys : list string)
  (parsed_data : list paper) (filename : string) : M unit :=
  open_w can_open filename ;;;
  DictWriter.writeheader filename keys ;;;
  DictWriter.writerows filename keys parsed_data ;;;
  print ("Data saved to " +:+ filename).

(** ** The requests library and the JSON of a response *)

(** A decoded JSON value (numbers: the integers are enough for what the
    program does with one, which is to test it for truth). *)
Inductive json : Type :=
| JNull
| JBool (b : bool)
| JNum (n : Z)
| JStr (s : string)
| JArr (l : list json)
| JObj (d : list (string * json)).

(** What [requests.get] does with a request. *)
Inductive http_outcome : Type :=
| GetRaises (msg : string)
    (* a RequestException [e] with [str(e) = msg] *)
| GetReturns (status_error : option string) (body : string)
             (decoded : string + json).
    (* a response: [raise_for_status()] raises an HTTPError with the message
       [status_error] if there is one; [text] is [body]; [json()] returns
       the value of [decoded] or raises a JSONDecodeError (a
       RequestException) with its message *)

Module Py.

(** [d.get(key, default)] on a decoded value: only an object has [get]. *)
Definition get (d : json) (key : string) (default : json) : result json :=
  match d with
  | JObj kvs =>
      Ok (match dict_get kvs key with
          | Some v => v
          | None => default
          end)
  | _ => Raise AttributeError
  end.

(** A decoded value as a value that may be [None]: the null of JSON is
    Python's [None]. *)
Definition nullable (v : json) : option json :=
  match v with
  | JNull => None
  | _ => Some v
  end.

(** The truth value of what [fetch_pubmed_data] returns. *)
Definition truthy (v : option json) : bool :=
  match v with
  | None => false
  | Some JNull => false
  | Some (JBool b) => b
  | Some (JNum n) => negb (Z.eqb n 0)
  | Some (JStr s) => negb (Str.is_empty s)
  | Some (JArr l) => negb (Nat.eqb (List.length l) 0)
  | Some (JObj d) => negb (Nat.eqb (List.length d) 0)
  end.

(** [len(v)] *)
Definition len (v : json) : result nat :=
  match v with
  | JStr s => Ok (String.length s)
  | JArr l => Ok (List.length l)
  | JObj d => Ok (List.length d)
  | _ => Raise TypeError
  end.

(** The items that iterating over [v] gives to [",".join]; every one has to
    be a [str]. *)
Fixpoint strs_of (l : list json) : result (list string) :=
  match l with
  | [] => Ok []
  | JStr s :: l' => r <- strs_of l' ;; Ok (s :: r)
  | _ :: _ => Raise TypeError
  end.

Definition chars_of (s : string) : list string :=
  map (fun c => String c "") (list_ascii_of_string s).

(** [sep.join(v)] *)
Definition join (sep : string) (v : json) : result string :=
  match v with
  | JArr l => r <- strs_of l ;; Ok (Str.join sep r)
  | JStr s => Ok (Str.join sep (chars_of s))
  | JObj d => Ok (Str.join sep (map fst d))
  | _ => Raise TypeError
  end.

End Py.

(** ** get_paper.py: the two requests and main *)

Record Args : Type := {
  query : string;
  file : string;
  number : Z
}.

Section Pipeline.

(** The network: what [requests.get] does with each request. *)
Variable http_get : request -> http_outcome.

(** [ET.fromstring] *)
Variable fromstring : string -> option Element.

(** The names that [open] can open for writing. *)
Variable can_open : string -> bool.

(** [requests.get(base_url, params=params)]: the request is sent. *)
Definition requests_get (base_url : string) (ps : list (string * param))
  : M http_outcome :=
  fun w =>
    let r := {| url := base_url; params := ps |} in
    (Ok (http_get r), {| stdout := stdout w;
                         requests := requests w ++ [r];
                         files := files w |}).

Definition fetch_pubmed_data (query : string) (max_results : Z)
  : M (option json) :=
  let base_url :=
    "https://eutils.ncbi.nlm.nih.gov/entrez/eutils/esearch.fcgi" in
  let ps := [("db", PStr "pubmed"); ("term", PStr query);
             ("retmax", PInt max_results); ("retmode", PStr "json")] in
  response <~ requests_get base_url ps ;;
  match response with
  | GetRaises e =>
      print ("Error fetching PubMed data: " +:+ e) ;;; ret None
  | GetReturns (Some e) _ _ =>
      print ("Error fetching PubMed data: " +:+ e) ;;; ret None
  | GetReturns None _ (inl e) =>
      print ("Error fetching PubMed data: " +:+ e) ;;; ret None
  | GetReturns None _ (inr data) =>
      esearchresult <~ lift (Py.get data "esearchresult" (JObj [])) ;;
      idlist <~ lift (Py.get esearchresult "idlist" (JArr [])) ;;
      ret (Py.nullable idlist)
  end.

Definition fetch_paper_details (pubmed_ids : json) : M (option string) :=
  let base_url :=
    "https://eutils.ncbi.nlm.nih.gov/entrez/eutils/efetch.fcgi" in
  ids <~ lift (Py.join "," pubmed_ids) ;;
  let ps := [("db", PStr "pubmed"); ("id", PStr ids);
             ("retmode", PStr "xml")] in
  response <~ requests_get base_url ps ;;
  match response with
  | GetRaises e =>
      print ("Error fetching paper details: " +:+ e) ;;; ret None
  | GetReturns (Some e) _ _ =>
      print ("Error fetching paper details: " +:+ e) ;;; ret None
  | GetReturns None body _ => ret (Some body)
  end.

Definition is_true_text (x : option string) : bool :=
  match x with
  | Some s => negb (Str.is_empty s)
  | None => false
  end.

(** [main], from the parsed command line on. *)
Definition main (args : Args) : M unit :=
  print ("Fetching papers for query: " +:+ query args) ;;;
  pubmed_ids <~ fetch_pubmed_data (query args) (number args) ;;
  match pubmed_ids with
  | Some ids =>
      if Py.truthy pubmed_ids then
        n <~ lift (Py.len ids) ;;
        print ("Found " +:+ Str.of_nat n +:+ " papers.") ;;;
        xml_data <~ fetch_paper_details ids ;;
        match xml_data with
        | Some xml =>
            if is_true_text xml_data then
              parsed_data <~ lift (parse_paper_details fromstring xml) ;;
              GetPaper.save_to_csv can_open parsed_data (file args)
            else print "Failed to fetch paper details."
        | None => print "Failed to fetch paper details."
        end
      else print "No papers found for the query."
  | None => print "No papers found for the query."
  end.

End Pipeline.

(** ** The reader of the csv module

    The file that a writer made is read back the way the library prescribes:
    opened with [newline=""] and handed to [csv.reader] with the same
    dialect.  The file gives its lines with their ends kept; an end of line
    is a line feed, a carriage return, or the two in a row.  The reader
    keeps the limit on the size of a field that the module sets. *)

Module Reader.









(** [csv.field_size_limit()], as the module sets it. *)
Definition field_limit : Z := 131072.










(** *** The reader, character by character

    The same reading, stated on the text itself instead of on its lines:
    the mark of the end of a line is given to the parser after a line feed,
    and after a carriage return that no line feed follows.  [pending] tells
    that characters were read since the last mark.  The proofs go through
    this form; [read_from_chars] below shows that it is the reader. *)

(** The field is within the limit of the reader. *)
Definition fits (f : string) : bool :=
  Z.leb (Z.of_nat (String.length f)) field_limit.







End Reader.

(** ** The properties in the words of the specification *)

Module Spec.

(** [sub] occurs in [s]. *)
Definition occurs_in (sub s : string) : Prop :=
  exists pre post, s = pre +:+ sub +:+ post.

Fixpoint all_space (s : string) : bool :=
  match s with
  | EmptyString => true
  | String c r => Str.isspace c && all_space r
  end.

Fixpoint no_space (s : string) : bool :=
  match s with
  | EmptyString => true
  | String c r => negb (Str.isspace c) && no_space r
  end.

(** [pre] is empty or ends with white space: a token can start after it. *)
Definition token_boundary (pre : string) : Prop :=
  pre = "" \/ exists pre' c, pre = pre' +:+ String c "" /\ Str.isspace c = true.

(** [tok] is the last token of [t] that white space delimits: a run of
    characters without white space that cannot be made longer, with nothing
    but white space after it. *)
Definition last_token (t tok : string) : Prop :=
  tok <> "" /\ no_space tok = true /\
  exists pre post,
    t = pre +:+ tok +:+ post /\ token_boundary pre /\ all_space post = true.

(** The affiliation text of an author: the text of the first Affiliation
    under an AffiliationInfo, when there is one and it has text. *)
Definition affiliation_text (author : Element) : option string :=
  match ET.find_desc_child "AffiliationInfo" "Affiliation" author with
  | Some affiliation => ET.text affiliation
  | None => None
  end.

(** The keywords occur in the text, whatever the case of its letters. *)
Definition mentions_company (t : string) : Prop :=
  occurs_in "company" (Str.lower t) \/ occurs_in "pharma" (Str.lower t)
  \/ occurs_in "biotech" (Str.lower t).

(** The number of elements with tag [t] beneath [e]. *)
Fixpoint count_below (t : string) (e : Element) : nat :=
  match e with
  | Elem _ _ cs =>
      fold_right (fun c n =>
                    (if String.eqb (ET.tag c) t then 1 else 0)
                    + count_below t c + n) 0 cs
  end.

(** An author is non-academic when the affiliation text mentions a company. *)
Definition non_academic (author : Element) : bool :=
  match affiliation_text author with
  | Some t => any_keyword t
  | None => false
  end.

(** The email that an author contributes: the last token of an affiliation
    text with an at sign. *)
Definition email_of (author : Element) : list string :=
  match affiliation_text author with
  | Some t =>
      if Str.contains "@" t
      then match rev (Str.split t) with e :: _ => [e] | [] => [] end
      else []
  | None => []
  end.

Definition affiliation_or_empty (author : Element) : string :=
  match affiliation_text author with Some t => t | None => "" end.

(** The fixed key set of a record, in order. *)
Definition record_keys : list string :=
  ["PubMedID"; "Title"; "Publication Date"; "Authors";
   "Non-academic Authors"; "Company Affiliations"; "Email"].

(** The Affiliation that the loop finds for an author, if any, has text. *)
Definition affiliation_has_text (author : Element) : bool :=
  match ET.find_desc_child "AffiliationInfo" "Affiliation" author with
  | Some affiliation =>
      match ET.text affiliation with Some _ => true | None => false end
  | None => true
  end.

(** The four lists after the authors [l], in the words of the
    specification: every name; the names and the affiliation texts of the
    non-academic authors; the emails, in the order of the authors. *)
Definition extend (st : author_lists) (l : list Element) : author_lists :=
  {| authors := authors st ++ map fullname_of l;
     non_academic_authors :=
       non_academic_authors st ++ map fullname_of (filter non_academic l);
     company_affiliations :=
       company_affiliations st
       ++ map affiliation_or_empty (filter non_academic l);
     emails := emails st ++ flat_map email_of l |}.

(** A sub-field of a publication date: the text of the first child with the
    tag, empty when there is no such child or it has no text. *)
Definition component (t : string) (pub_date : Element) : string :=
  match hd_error (ET.child_elems t pub_date) with
  | Some c => match ET.text c with Some x => x | None => "" end
  | None => ""
  end.

(** The publication date has a Year sub-field. *)
Definition year_present (article : Element) : bool :=
  match ET.find_desc "PubDate" article with
  | Some pub_date =>
      match ET.child_elems "Year" pub_date with
      | _ :: _ => true
      | [] => false
      end
  | None => false
  end.

(** YEAR-MONTH-DAY *)
Definition year_month_day (pub_date : Element) : string :=
  component "Year" pub_date +:+ "-" +:+ component "Month" pub_date
  +:+ "-" +:+ component "Day" pub_date.

(** No value of the record is [None]. *)
Definition all_strings (p : paper) : bool :=
  forallb (fun kv => match snd kv with Some _ => true | None => false end) p.


(** The request of the search for the identifiers. *)
Definition search_request (query : string) (max_results : Z) : request :=
  {| url := "https://eutils.ncbi.nlm.nih.gov/entrez/eutils/esearch.fcgi";
     params := [("db", PStr "pubmed"); ("term", PStr query);
                ("retmax", PInt max_results); ("retmode", PStr "json")] |}.

(** The search returns [v], whatever the world it is run in. *)
Definition search_returns (http_get : request -> http_outcome)
  (query : string) (max_results : Z) (v : option json) : Prop :=
  forall w, fst (fetch_pubmed_data http_get query max_results w) = Ok v.

(** The authors of an article, in document order. *)
Definition authors_of (article : Element) : list Element :=
  ET.findall_desc "Author" article.

(** The articles of a document, in document order. *)
Definition articles_of (root : Element) : list Element :=
  ET.findall_desc "PubmedArticle" root.

(** No Affiliation that the loop reads in the article lacks its text. *)
Definition article_has_texts (article : Element) : bool :=
  forallb affiliation_has_text (authors_of article).

(** The record of an article, field by field. *)
Definition record_of (article : Element) : paper :=
  let st := extend no_authors (authors_of article) in
  [("PubMedID", ET.findtext_desc "PMID" article);
   ("Title", ET.findtext_desc "ArticleTitle" article);
   ("Publication Date", Some (publication_date article));
   ("Authors", Some (Str.join ", " (authors st)));
   ("Non-academic Authors", Some (Str.join ", " (non_academic_authors st)));
   ("Company Affiliations", Some (Str.join "; " (company_affiliations st)));
   ("Email", Some (match emails st with
                   | e :: _ => e
                   | [] => "Not Available"
                   end))].

End Spec.

(** ** Sample inputs *)

Module Sample.

Definition jane_affiliation : string :=
  "Jane Doe, Acme Biotech Inc, jane@acme.com".

Definition jane : Element :=
  Elem "Author" None
    [Elem "LastName" (Some "Doe") [];
     Elem "ForeName" (Some "Jane") [];
     Elem "AffiliationInfo" None
       [Elem "Affiliation" (Some jane_affiliation) []]].

(** A publication date whose Year is there without text. *)
Definition empty_year_pub_date : Element :=
  Elem "PubDate" None [Elem "Year" None []; Elem "Month" (Some "Jan") []].

Definition empty_year_article : Element :=
  Elem "PubmedArticle" None [empty_year_pub_date].

(** Year=2020, no Month, no Day. *)
Definition year_2020_article : Element :=
  Elem "PubmedArticle" None
    [Elem "PubDate" None [Elem "Year" (Some "2020") []]].

(** A document with one article, whose author has an Affiliation element
    without text. *)
Definition empty_affiliation_xml : string :=
  "<PubmedArticleSet><PubmedArticle><MedlineCitation><PMID>1</PMID><Article><AuthorList><Author><LastName>Doe</LastName><AffiliationInfo><Affiliation/></AffiliationInfo></Author></AuthorList></Article></MedlineCitation></PubmedArticle></PubmedArticleSet>".

Definition empty_affiliation_doc : Element :=
  Elem "PubmedArticleSet" None
    [Elem "PubmedArticle" None
       [Elem "MedlineCitation" None
          [Elem "PMID" (Some "1") [];
           Elem "Article" None
             [Elem "AuthorList" None
                [Elem "Author" None
                   [Elem "LastName" (Some "Doe") [];
                    Elem "AffiliationInfo" None
                      [Elem "Affiliation" None []]]]]]]].

(** An article with nothing in it, and its record. *)
Definition bare_article : Element := Elem "PubmedArticle" None [].

Definition bare_record : paper :=
  [("PubMedID", None); ("Title", None);
   ("Publication Date", Some "Unknown"); ("Authors", Some "");
   ("Non-academic Authors", Some ""); ("Company Affiliations", Some "");
   ("Email", Some "Not Available")].

(** An article of two authors; only the second has an affiliation. *)
Definition two_authors_article : Element :=
  Elem "PubmedArticle" None
    [Elem "Author" None
       [Elem "LastName" (Some "Roe") []; Elem "ForeName" (Some "Ann") []];
     jane].

(** An article with a publication date and an author with an address. *)
Definition dated_article : Element :=
  Elem "PubmedArticle" None
    [Elem "PubDate" None
       [Elem "Year" (Some "2021") []; Elem "Month" (Some "Mar") []];
     jane].



(** A system on which every name can be opened but the empty one. *)
Definition can_open (name : string) : bool := negb (Str.is_empty name).

(** A world in which nothing was printed, sent or written. *)
Definition world : World :=
  {| stdout := []; requests := []; files := fun _ => None |}.

(** A network in which every search finds nothing. *)
Definition http_get (r : request) : http_outcome :=
  GetReturns None "{}"
    (inr (JObj [("esearchresult", JObj [("idlist", JArr [])])])).

Definition args : Args :=
  {| query := "no such paper"; file := "results.csv"; number := 10 |}.

(** A parser to run the examples with: it knows the sample document and
    takes every other text as not well formed. *)
Definition fromstring (xml_data : string) : option Element :=
  if String.eqb xml_data empty_affiliation_xml
  then Some empty_affiliation_doc else None.

End Sample.

(** ** Further properties: what they are stated with *)

Module Net.

(** The request of the fetch of the records, for the identifiers joined. *)
Definition fetch_request (ids : string) : request :=
  {| url := "https://eutils.ncbi.nlm.nih.gov/entrez/eutils/efetch.fcgi";
     params := [("db", PStr "pubmed"); ("id", PStr ids);
                ("retmode", PStr "xml")] |}.

(** The message of the RequestException that ends the search, if there is
    one: raised by the call, by the check of the status, or by the decoding
    of the body. *)
Definition search_error (o : http_outcome) : option string :=
  match o with
  | GetRaises e => Some e
  | GetReturns (Some e) _ _ => Some e
  | GetReturns None _ (inl e) => Some e
  | GetReturns None _ (inr _) => None
  end.

(** The same for the fetch, which does not decode the body. *)
Definition fetch_error (o : http_outcome) : option string :=
  match o with
  | GetRaises e => Some e
  | GetReturns (Some e) _ _ => Some e
  | GetReturns None _ _ => None
  end.

(** [s.split(",")]: the pieces of [s] between its commas; [cur] is the
    piece being read. *)
Fixpoint split_commas_from (cur s : string) : list string :=
  match s with
  | EmptyString => [cur]
  | String c r =>
      if Ascii.eqb c ","%char then cur :: split_commas_from "" r
      else split_commas_from (cur +:+ String c "") r
  end.

Definition split_commas (s : string) : list string := split_commas_from "" s.

Fixpoint no_comma (s : string) : bool :=
  match s with
  | EmptyString => true
  | String c r => negb (Ascii.eqb c ","%char) && no_comma r
  end.


Definition is_str (v : json) : bool :=
  match v with JStr _ => true | _ => false end.

(** The search finds the identifiers [l]: its response decodes to an
    object whose "esearchresult" is an object with [l] as its "idlist". *)
Definition finds (http_get : request -> http_outcome) (query : string)
  (max_results : Z) (l : list string) : Prop :=
  exists body d er,
    http_get (Spec.search_request query max_results)
      = GetReturns None body (inr (JObj d)) /\
    dict_get d "esearchresult" = Some (JObj er) /\
    dict_get er "idlist" = Some (JArr (map JStr l)).

(** The world after [lines] were printed and [reqs] were sent. *)
Definition after (w : World) (lines : list string) (reqs : list request)
  : World :=
  {| stdout := stdout w ++ lines;
     requests := requests w ++ reqs;
     files := files w |}.

End Net.

Module Text.

(** The string does not start with white space. *)
Definition starts_clean (s : string) : bool :=
  match s with
  | EmptyString => true
  | String c _ => negb (Str.isspace c)
  end.

(** The string does not end with white space. *)
Fixpoint ends_clean (s : string) : bool :=
  match s with
  | EmptyString => true
  | String c EmptyString => negb (Str.isspace c)
  | String _ r => ends_clean r
  end.

End Text.

Module Table.

(** The cell of a row under a column: the value of the key, empty when the
    row has no such key or has [None] for it. *)
Definition cell (p : paper) (key : string) : string :=
  match dict_get p key with
  | Some v => Csv.field_of v
  | None => ""
  end.

(** The cells of a row under the columns are within the limit of the
    reader. *)
Definition fits (keys : list string) (p : paper) : bool :=
  forallb (fun key => Reader.fits (cell p key)) keys.


End Table.

Module Run.

(** A document of two articles, the first with the sample author. *)
Definition doc : Element :=
  Elem "PubmedArticleSet" None
    [Elem "PubmedArticle" None
       [Elem "PMID" (Some "1") []; Elem "ArticleTitle" (Some "On a, b") [];
        Sample.jane];
     Elem "PubmedArticle" None [Elem "PMID" (Some "22") []]].

(** A document without articles. *)
Definition empty_doc : Element := Elem "PubmedArticleSet" None [].

(** The text of [doc], of [empty_doc], and a text that is not well
    formed. *)
Definition xml : string :=
  "<PubmedArticleSet><PubmedArticle><PMID>1</PMID><ArticleTitle>On a, b</ArticleTitle><Author><LastName>Doe</LastName><ForeName>Jane</ForeName><AffiliationInfo><Affiliation>Jane Doe, Acme Biotech Inc, jane@acme.com</Affiliation></AffiliationInfo></Author></PubmedArticle><PubmedArticle><PMID>22</PMID></PubmedArticle></PubmedArticleSet>".

Definition empty_xml : string := "<PubmedArticleSet/>".

Definition broken_xml : string := "<PubmedArticleSet>".

(** A parser to run the examples with: it knows the two sample documents
    and takes every other text as not well formed. *)
Definition fromstring (xml_data : string) : option Element :=
  if String.eqb xml_data xml then Some doc
  else if String.eqb xml_data empty_xml then Some empty_doc
  else None.

(** A network that finds two identifiers and returns [body] for them. *)
Definition http_body (body : string) (r : request) : http_outcome :=
  if String.eqb (url r) (url (Spec.search_request "" 0))
  then GetReturns None "{}"
         (inr (JObj [("esearchresult",
                      JObj [("idlist", JArr [JStr "1"; JStr "22"])])]))
  else GetReturns None body (inl "not JSON").

Definition http_get : request -> http_outcome := http_body xml.

(** A network that is down. *)
Definition http_down (r : request) : http_outcome :=
  GetRaises "connection refused".


(** A network whose search answers with an object without the result. *)
Definition http_bare (r : request) : http_outcome :=
  GetReturns None "{}" (inr (JObj [])).

(** A network that finds identifiers and fails to fetch them. *)
Definition http_no_fetch (r : request) : http_outcome :=
  if String.eqb (url r) (url (Spec.search_request "" 0))
  then GetReturns None "{}"
         (inr (JObj [("esearchresult",
                      JObj [("idlist", JArr [JStr "1"; JStr "22"])])]))
  else GetReturns (Some "500 Server Error") "" (inl "not JSON").



End Run.

(** * Theorems *)

(** ** Strings *)

Lemma append_nil_r (s : string) : s +:+ "" = s.
Proof. induction s; simpl; congruence. Qed.

Lemma append_assoc (a b c : string) : (a +:+ b) +:+ c = a +:+ b +:+ c.
Proof. induction a; simpl; congruence. Qed.

Lemma append_snoc (a : string) (c : ascii) (b : string) :
  (a +:+ String c "") +:+ b = a +:+ String c b.
Proof. now rewrite append_assoc. Qed.

Lemma is_empty_true (s : string) : Str.is_empty s = true <-> s = "".
Proof. destruct s; simpl; split; congruence. Qed.

Lemma is_empty_false (s : string) : Str.is_empty s = false <-> s <> "".
Proof. destruct s; simpl; split; congruence. Qed.

Lemma prefix_occurs (p s : string) :
  Str.startswith p s = true <-> exists post, s = p +:+ post.
Proof.
  revert s; induction p as [|c p IH]; intros s; simpl.
  - split; [intros _; now exists s | reflexivity].
  - destruct s as [|d s].
    + split; [discriminate | intros [post H]; discriminate].
    + rewrite andb_true_iff, Ascii.eqb_eq, IH. split.
      * intros [-> [post ->]]. now exists post.
      * intros [post H]. injection H as -> ->. eauto.
Qed.

Lemma contains_occurs (sub s : string) :
  Str.contains sub s = true <-> Spec.occurs_in sub s.
Proof.
  unfold Spec.occurs_in. induction s as [|c s IH].
  - simpl. rewrite orb_false_r, prefix_occurs. split.
    + intros [post H]. exists "", post. exact H.
    + intros [pre [post H]]. destruct pre; [eauto | discriminate].
  - cbn [Str.contains]. rewrite orb_true_iff, prefix_occurs, IH. split.
    + intros [[post H] | [pre [post H]]].
      * exists "", post. exact H.
      * exists (String c pre), post. simpl. congruence.
    + intros [pre [post H]]. destruct pre as [|d pre].
      * left. eauto.
      * right. simpl in H. injection H as _ H. eauto.
Qed.

Lemma last_item_snoc {A} (l : list A) (x : A) : last_item (l ++ [x]) = Ok x.
Proof. unfold last_item. now rewrite rev_app_distr. Qed.

Lemma last_item_cons {A} (x y : A) (l : list A) :
  last_item (x :: y :: l) = last_item (y :: l).
Proof.
  unfold last_item. simpl.
  destruct (rev l ++ [y]) eqn:E; [now destruct (rev l) | reflexivity].
Qed.

Lemma no_space_snoc (tok : string) (c : ascii) :
  Spec.no_space tok = true -> Str.isspace c = false ->
  Spec.no_space (tok +:+ String c "") = true.
Proof.
  induction tok as [|d tok IH]; simpl; intros H Hc.
  - now rewrite Hc.
  - apply andb_true_iff in H as [-> H]. simpl. auto.
Qed.

Lemma snoc_not_empty (tok : string) (c : ascii) : tok +:+ String c "" <> "".
Proof. destruct tok; discriminate. Qed.

Lemma split_from_token (tok s : string) :
  tok <> "" -> Str.split_from tok s <> [].
Proof.
  revert tok; induction s as [|c s IH]; intros tok Htok; simpl.
  - apply is_empty_false in Htok. rewrite Htok. discriminate.
  - destruct (Str.isspace c).
    + apply is_empty_false in Htok. rewrite Htok. discriminate.
    + apply IH, snoc_not_empty.
Qed.

Lemma split_nil_all_space (s : string) :
  Str.split_from "" s = [] -> Spec.all_space s = true.
Proof.
  induction s as [|c s IH]; simpl; [reflexivity|].
  destruct (Str.isspace c); simpl; [exact IH|].
  intros H. now apply split_from_token in H.
Qed.

Lemma split_from_nonspace (tok pre : string) (c : ascii) (post : string) :
  Str.isspace c = false -> Str.split_from tok (pre +:+ String c post) <> [].
Proof.
  intros Hc. revert tok; induction pre as [|d pre IH]; intros tok; simpl.
  - rewrite Hc. apply split_from_token, snoc_not_empty.
  - destruct (Str.isspace d); [|apply IH].
    destruct (Str.is_empty tok); [apply IH | discriminate].
Qed.

(** The last item of [s.split()] is the last token of [s]; the scan is
    followed with the text [pre0] that it has left behind. *)
Lemma split_from_last (s : string) : forall (pre0 tok tk : string),
  Spec.token_boundary pre0 -> Spec.no_space tok = true ->
  last_item (Str.split_from tok s) = Ok tk ->
  Spec.last_token (pre0 +:+ tok +:+ s) tk.
Proof.
  induction s as [|c s IH]; intros pre0 tok tk Hpre Htok; simpl.
  - destruct (Str.is_empty tok) eqn:E; [discriminate|].
    intros [= <-]. apply is_empty_false in E.
    repeat split; auto. exists pre0, "". auto.
  - destruct (Str.isspace c) eqn:Hc.
    + assert (Hb : Spec.token_boundary ((pre0 +:+ tok) +:+ String c "")).
      { right. exists (pre0 +:+ tok), c. auto. }
      destruct (Str.is_empty tok) eqn:E.
      * intros H. apply (IH _ "" _ Hb eq_refl) in H.
        simpl in H. now rewrite append_snoc, append_assoc in H.
      * destruct (Str.split_from "" s) as [|y l] eqn:Es.
        -- intros [= <-]. apply is_empty_false in E.
           repeat split; auto. exists pre0, (String c s). repeat split; auto.
           simpl. rewrite Hc. now apply split_nil_all_space.
        -- rewrite last_item_cons, <- Es. intros H.
           apply (IH _ "" _ Hb eq_refl) in H.
           simpl in H. now rewrite append_snoc, append_assoc in H.
    + intros H. apply (IH pre0) in H; auto using no_space_snoc.
      now rewrite append_snoc in H.
Qed.

Lemma last_item_nonempty {A} (l : list A) :
  l <> [] -> exists x, last_item l = Ok x.
Proof.
  intros Hne. unfold last_item. destruct (rev l) as [|x l'] eqn:E; [|eauto].
  apply (f_equal (@rev _)) in E. rewrite rev_involutive in E. contradiction.
Qed.

Lemma split_last_token (t pre post : string) (c : ascii) :
  t = pre +:+ String c post -> Str.isspace c = false ->
  exists tok, last_item (Str.split t) = Ok tok /\ Spec.last_token t tok.
Proof.
  intros -> Hc. unfold Str.split.
  destruct (last_item_nonempty _ (split_from_nonspace "" pre c post Hc))
    as [tok Htok].
  exists tok. split; [exact Htok|].
  now apply (split_from_last _ "" "" tok); [left | |].
Qed.

Lemma split_from_space (tok : string) (c : ascii) (s : string) :
  Str.isspace c = true ->
  Str.split_from tok (String c s) = Str.split_from tok "" ++ Str.split_from "" s.
Proof. intros H. cbn. rewrite H. now destruct (Str.is_empty tok). Qed.

Lemma split_from_cons (tok : string) (c : ascii) (s : string) :
  Str.split_from tok (String c s) =
    if Str.isspace c
    then (if Str.is_empty tok then Str.split_from "" s
          else tok :: Str.split_from "" s)
    else Str.split_from (tok +:+ String c "") s.
Proof. reflexivity. Qed.

(** The scan starts afresh after white space. *)
Lemma split_from_boundary (pre : string) : forall (tok s : string),
  pre <> "" -> Spec.token_boundary pre ->
  Str.split_from tok (pre +:+ s) =
    Str.split_from tok pre ++ Str.split_from "" s.
Proof.
  induction pre as [|c pre IH]; intros tok s Hne Hb; [contradiction|].
  destruct pre as [|d pre].
  - destruct Hb as [H | [pre' [c' [H Hc']]]]; [discriminate|].
    destruct pre' as [|? [|]]; try discriminate. injection H as ->.
    cbn [String.append]. now rewrite !(split_from_space _ _ _ Hc'), app_nil_r.
  - assert (Hb' : Spec.token_boundary (String d pre)).
    { destruct Hb as [H | [pre' [c' [H Hc']]]]; [discriminate|].
      right. destruct pre' as [|e pre']; [discriminate|].
      injection H as -> H. eauto. }
    change (String c (String d pre) +:+ s) with (String c (String d pre +:+ s)).
    rewrite !(split_from_cons _ c).
    destruct (Str.isspace c); [destruct (Str.is_empty tok)|];
      cbn [app]; now rewrite IH by (auto; discriminate).
Qed.

Lemma split_from_tail (tok : string) : forall (cur post : string),
  Spec.no_space tok = true -> Spec.all_space post = true ->
  cur +:+ tok <> "" ->
  Str.split_from cur (tok +:+ post) = [cur +:+ tok].
Proof.
  induction tok as [|c tok IH]; intros cur post Htok Hpost Hne.
  - rewrite append_nil_r in *. cbn [String.append].
    apply is_empty_false in Hne.
    induction post as [|d post IHp]; cbn; [now rewrite Hne|].
    cbn in Hpost. apply andb_true_iff in Hpost as [-> Hpost].
    rewrite Hne. f_equal.
    clear -Hpost. induction post as [|e post IH]; [reflexivity|].
    cbn in *. apply andb_true_iff in Hpost as [-> Hpost]. auto.
  - cbn in Htok. apply andb_true_iff in Htok as [Hc Htok].
    apply negb_true_iff in Hc. cbn [String.append Str.split_from].
    rewrite Hc, IH, append_snoc; auto.
    rewrite append_snoc. destruct cur; discriminate.
Qed.

(** The last item of [s.split()] is the last token of [s], and nothing else
    is. *)
Lemma split_last_iff (t tok : string) :
  last_item (Str.split t) = Ok tok <-> Spec.last_token t tok.
Proof.
  split.
  - intros H. apply (split_from_last t "" "" tok); auto. now left.
  - intros [Hne [Hns [pre [post [-> [Hb Hpost]]]]]]. unfold Str.split.
    destruct pre as [|c pre].
    + cbn [String.append]. now rewrite split_from_tail.
    + rewrite split_from_boundary, split_from_tail by (auto; discriminate).
      apply last_item_snoc.
Qed.

Lemma last_token_unique (t a b : string) :
  Spec.last_token t a -> Spec.last_token t b -> a = b.
Proof. rewrite <- !split_last_iff. congruence. Qed.

Lemma any_keyword_mentions (t : string) :
  any_keyword t = true <-> Spec.mentions_company t.
Proof.
  unfold any_keyword, Spec.mentions_company, keywords. simpl.
  rewrite orb_false_r, !orb_true_iff, !contains_occurs. tauto.
Qed.

(** ** The loop over the authors *)

Lemma at_sign_last_token (t : string) :
  Str.contains "@" t = true ->
  exists tok,
    last_item (Str.split t) = Ok tok /\ Spec.last_token t tok /\
    (forall tok', Spec.last_token t tok' -> tok' = tok).
Proof.
  intros H. apply contains_occurs in H as [pre [post H]].
  destruct (split_last_token t pre post "@"%char H eq_refl) as [tok [Hl Ht]].
  exists tok. split; [exact Hl | split; [exact Ht|]].
  intros tok' Ht'. exact (last_token_unique t tok' tok Ht' Ht).
Qed.

(** C1.  For an author whose affiliation text [t] is present, the body of
    the loop returns, and: the full name joins the authors; when [t] has an
    at sign, the last token of [t] that white space delimits (there is
    exactly one) joins the emails (and nothing does otherwise); when the lower-cased [t] has one of
    the key words, the full name joins the non-academic authors and [t]
    itself the company affiliations (and nothing does otherwise).  In
    particular, for the text "Jane Doe, Acme Biotech Inc, jane@acme.com" the
    author is non-academic, the affiliation is kept as it is and the email
    is "jane@acme.com". *)
Theorem affiliation_heuristic :
  (forall (st : author_lists) (author : Element) (t : string),
      Spec.affiliation_text author = Some t ->
      exists st',
        author_body st author = Ok st' /\
        authors st' = authors st ++ [fullname_of author] /\
        (Spec.occurs_in "@" t ->
         exists tok,
           Spec.last_token t tok /\
           (forall tok', Spec.last_token t tok' -> tok' = tok) /\
           emails st' = emails st ++ [tok]) /\
        (~ Spec.occurs_in "@" t -> emails st' = emails st) /\
        (Spec.mentions_company t ->
         non_academic_authors st' =
           non_academic_authors st ++ [fullname_of author] /\
         company_affiliations st' = company_affiliations st ++ [t]) /\
        (~ Spec.mentions_company t ->
         non_academic_authors st' = non_academic_authors st /\
         company_affiliations st' = company_affiliations st))
  /\
  (forall (st : author_lists) (author : Element),
      Spec.affiliation_text author = Some Sample.jane_affiliation ->
      author_body st author =
        Ok {| authors := authors st ++ [fullname_of author];
              non_academic_authors :=
                non_academic_authors st ++ [fullname_of author];
              company_affiliations :=
                company_affiliations st ++ [Sample.jane_affiliation];
              emails := emails st ++ ["jane@acme.com"] |}).
Proof.
  split.
  - intros st author t H. unfold Spec.affiliation_text in H.
    destruct (ET.find_desc_child _ _ author) as [aff|] eqn:F; [|discriminate].
    unfold author_body. rewrite F, H.
    pose proof (contains_occurs "@" t) as Hat.
    pose proof (any_keyword_mentions t) as Hk.
    destruct (Str.contains "@" t) eqn:Eat.
    + destruct (at_sign_last_token t Eat) as [tok [Hlast [Htok Huniq]]].
      rewrite Hlast. cbn [bind emails].
      destruct (any_keyword t) eqn:Ek; eexists; (split; [reflexivity|]);
        cbn [authors emails non_academic_authors company_affiliations];
        intuition (try congruence; eauto).
    + cbn [bind emails].
      destruct (any_keyword t) eqn:Ek; eexists; (split; [reflexivity|]);
        cbn [authors emails non_academic_authors company_affiliations];
        intuition (try congruence; eauto).
  - intros st author H. unfold Spec.affiliation_text in H.
    destruct (ET.find_desc_child _ _ author) as [aff|] eqn:F; [|discriminate].
    unfold author_body. rewrite F, H. reflexivity.
Qed.

Lemma affiliation_heuristic_witness :
  author_body no_authors Sample.jane =
    Ok {| authors := ["Jane Doe"];
          non_academic_authors := ["Jane Doe"];
          company_affiliations := [Sample.jane_affiliation];
          emails := ["jane@acme.com"] |}.
Proof.
  exact (proj2 affiliation_heuristic no_authors Sample.jane eq_refl).
Defined.

(** ** The publication date *)

Lemma findtext_component (t : string) (pub_date : Element) :
  ET.findtext t "" pub_date = Spec.component t pub_date.
Proof.
  unfold ET.findtext, Spec.component, ET.text_or_empty.
  now destruct (hd_error _).
Qed.

Lemma component_absent (t : string) (pub_date : Element) :
  ET.child_elems t pub_date = [] -> Spec.component t pub_date = "".
Proof. unfold Spec.component. now intros ->. Qed.

(** C2 as it is worded fails: a Year may be there and have no text; the
    date is then "Unknown", not the string built from the sub-fields. *)
Lemma publication_date_year_without_text :
  ET.find_desc "PubDate" Sample.empty_year_article
    = Some Sample.empty_year_pub_date /\
  Spec.year_present Sample.empty_year_article = true /\
  Spec.year_month_day Sample.empty_year_pub_date = "-Jan-" /\
  publication_date Sample.empty_year_article = "Unknown" /\
  publication_date Sample.empty_year_article
    <> Spec.year_month_day Sample.empty_year_pub_date.
Proof. repeat split; try reflexivity; discriminate. Qed.

(** C2, amended.  The date is YEAR-MONTH-DAY, built from the sub-fields of
    the first PubDate of the article, when that PubDate has a Year whose text
    is not empty; a Month or Day that is absent counts as the empty string
    (Year=2020 alone gives "2020--").  The date is "Unknown" in every other
    case: no PubDate, no Year in it, or a Year with no text. *)
Theorem publication_date_cases (article : Element) :
  (forall pub_date,
      ET.find_desc "PubDate" article = Some pub_date ->
      Spec.component "Year" pub_date <> "" ->
      publication_date article = Spec.year_month_day pub_date) /\
  (forall pub_date,
      ET.find_desc "PubDate" article = Some pub_date ->
      Spec.component "Year" pub_date = "2020" ->
      ET.child_elems "Month" pub_date = [] ->
      ET.child_elems "Day" pub_date = [] ->
      publication_date article = "2020--") /\
  (forall pub_date,
      ET.find_desc "PubDate" article = Some pub_date ->
      Spec.component "Year" pub_date = "" ->
      publication_date article = "Unknown") /\
  (Spec.year_present article = false ->
   publication_date article = "Unknown").
Proof.
  unfold publication_date, Spec.year_present, Spec.year_month_day.
  repeat split.
  - intros pd -> Hy. rewrite !findtext_component.
    apply is_empty_false in Hy. now rewrite Hy.
  - intros pd -> Hy Hm Hd. rewrite !findtext_component, Hy.
    now rewrite (component_absent _ _ Hm), (component_absent _ _ Hd).
  - intros pd -> Hy. now rewrite !findtext_component, Hy.
  - destruct (ET.find_desc "PubDate" article) as [pd|]; [|reflexivity].
    destruct (ET.child_elems "Year" pd) eqn:E; [|discriminate].
    intros _. now rewrite !findtext_component, (component_absent _ _ E).
Qed.

Lemma publication_date_cases_witness :
  publication_date Sample.year_2020_article = "2020--".
Proof.
  refine (proj1 (proj2 (publication_date_cases Sample.year_2020_article))
            _ eq_refl eq_refl eq_refl eq_refl).
Defined.

(** ** The loops of parse_paper_details *)

Lemma author_body_spec (st : author_lists) (a : Element) :
  author_body st a =
    if Spec.affiliation_has_text a then Ok (Spec.extend st [a])
    else Raise TypeError.
Proof.
  unfold author_body, Spec.affiliation_has_text, Spec.extend,
    Spec.non_academic, Spec.email_of, Spec.affiliation_or_empty,
    Spec.affiliation_text.
  cbn [map filter flat_map].
  destruct (ET.find_desc_child _ _ a) as [aff|] eqn:F;
    [|now rewrite !app_nil_r].
  destruct (ET.text aff) as [t|] eqn:T; [|reflexivity].
  cbn [authors non_academic_authors company_affiliations emails].
  destruct (Str.contains "@" t) eqn:Eat.
  - destruct (at_sign_last_token t Eat) as [tok [Hlast _]].
    rewrite Hlast. unfold last_item in Hlast.
    destruct (rev (Str.split t)) as [|x l]; [discriminate|].
    injection Hlast as ->.
    destruct (any_keyword t); cbn; now rewrite ?F, ?T, ?app_nil_r.
  - destruct (any_keyword t); cbn; now rewrite ?F, ?T, ?app_nil_r.
Qed.

Lemma extend_cons (st : author_lists) (a : Element) (l : list Element) :
  Spec.extend (Spec.extend st [a]) l = Spec.extend st (a :: l).
Proof.
  unfold Spec.extend. cbn [map filter flat_map authors non_academic_authors
    company_affiliations emails].
  destruct (Spec.non_academic a); cbn [map];
    now rewrite <- !app_assoc, ?app_nil_r.
Qed.

Lemma authors_loop (l : list Element) : forall st,
  for_each author_body l st =
    if forallb Spec.affiliation_has_text l then Ok (Spec.extend st l)
    else Raise TypeError.
Proof.
  induction l as [|a l IH]; intros st.
  - unfold Spec.extend. cbn. rewrite !app_nil_r. now destruct st.
  - cbn [for_each forallb]. rewrite author_body_spec.
    destruct (Spec.affiliation_has_text a); [|reflexivity].
    cbn [bind andb]. rewrite IH, extend_cons. reflexivity.
Qed.

Lemma parse_article_spec (article : Element) :
  parse_article article =
    if Spec.article_has_texts article then Ok (Spec.record_of article)
    else Raise TypeError.
Proof.
  unfold parse_article, Spec.article_has_texts, Spec.authors_of.
  rewrite authors_loop.
  now destruct (forallb _ _).
Qed.

Lemma articles_loop (l : list Element) : forall acc,
  for_each (fun papers article =>
              p <- parse_article article ;; Ok (papers ++ [p])) l acc =
    if forallb Spec.article_has_texts l
    then Ok (acc ++ map Spec.record_of l)
    else Raise TypeError.
Proof.
  induction l as [|a l IH]; intros acc.
  - cbn. now rewrite app_nil_r.
  - cbn [for_each forallb map]. rewrite parse_article_spec.
    destruct (Spec.article_has_texts a); [|reflexivity].
    cbn [bind andb]. rewrite IH, <- app_assoc. reflexivity.
Qed.

Lemma parse_root_spec (root : Element) :
  parse_root root =
    if forallb Spec.article_has_texts (Spec.articles_of root)
    then Ok (map Spec.record_of (Spec.articles_of root))
    else Raise TypeError.
Proof. unfold parse_root. now rewrite articles_loop. Qed.

Lemma Element_forall_ind (P : Element -> Prop) :
  (forall t x cs, Forall P cs -> P (Elem t x cs)) -> forall e, P e.
Proof.
  intros H. fix IH 1. intros [t x cs]. apply H.
  induction cs as [|c cs IHcs]; constructor; [apply IH | exact IHcs].
Qed.

(** The elements that [findall] gives for [.//t] are as many as there are
    elements with tag [t] beneath the element. *)
Lemma length_descendants (t : string) (e : Element) :
  length (ET.descendants t e) = Spec.count_below t e.
Proof.
  induction e as [tg x cs IH] using Element_forall_ind.
  unfold ET.descendants. cbn [ET.children Spec.count_below].
  induction IH as [|c cs Hc _ IHcs]; [reflexivity|].
  cbn [flat_map fold_right]. rewrite filter_app, length_app, IHcs.
  destruct c as [tc xc ccs]. cbn [ET.iter filter].
  unfold ET.descendants in Hc. cbn [ET.children] in Hc.
  unfold ET.has_tag at 1. cbn [ET.tag].
  destruct (String.eqb tc t); cbn [length]; rewrite Hc; lia.
Qed.

Lemma record_of_keys (article : Element) :
  dict_keys (Spec.record_of article) = Spec.record_keys.
Proof. reflexivity. Qed.

(** What [parse_root] returns when it returns: one record for each article
    beneath the root, in document order, each with the fixed keys. *)
Lemma parse_root_records (root : Element) (papers : list paper) :
  parse_root root = Ok papers ->
  length papers = Spec.count_below "PubmedArticle" root /\
  papers = map Spec.record_of (Spec.articles_of root) /\
  Forall (fun p => dict_keys p = Spec.record_keys) papers.
Proof.
  rewrite parse_root_spec. destruct (forallb _ _); [|discriminate].
  intros [= <-]. repeat split.
  - rewrite length_map. apply length_descendants.
  - apply Forall_map, Forall_forall. intros a _. apply record_of_keys.
Qed.

(** [parse_root] returns exactly when every Affiliation that it reads has
    text. *)
Lemma parse_root_returns (root : Element) :
  (exists papers, parse_root root = Ok papers) <->
  forallb Spec.article_has_texts (Spec.articles_of root) = true.
Proof.
  rewrite parse_root_spec. destruct (forallb _ _); split; eauto.
  - intros [papers H]. discriminate.
  - discriminate.
Qed.

(** C3, at the input where the code departs from it: the document is well
    formed and has one article, and no list of records is returned. *)
Theorem parse_root_empty_affiliation :
  Spec.count_below "PubmedArticle" Sample.empty_affiliation_doc = 1 /\
  parse_root Sample.empty_affiliation_doc = Raise TypeError.
Proof. split; reflexivity. Qed.

(** C4, at the input where the code departs from it.  A document that is
    not well formed raises ParseError, as the claim says; but the well-formed
    sample document, in which an Affiliation element has no text, raises
    TypeError instead of being handled by a default. *)
Theorem parse_paper_details_empty_affiliation
  (fromstring : string -> option Element) (xml_data : string) :
  (fromstring xml_data = None ->
   parse_paper_details fromstring xml_data = Raise ParseError) /\
  (fromstring xml_data = Some Sample.empty_affiliation_doc ->
   parse_paper_details fromstring xml_data = Raise TypeError).
Proof.
  unfold parse_paper_details. split; intros ->; reflexivity.
Qed.

Lemma parse_paper_details_empty_affiliation_witness :
  parse_paper_details Sample.fromstring Sample.empty_affiliation_xml
    = Raise TypeError.
Proof.
  exact (proj2 (parse_paper_details_empty_affiliation Sample.fromstring
                  Sample.empty_affiliation_xml) eq_refl).
Defined.

(** ** The records *)

(** C5 as it is worded fails: the record of an article without a PMID has
    the key, but its value is [None], which is neither an empty string nor
    one of the two sentinels. *)
Lemma record_value_none :
  parse_article Sample.bare_article = Ok Sample.bare_record /\
  dict_get Sample.bare_record "PubMedID" = Some None /\
  Spec.all_strings Sample.bare_record = false.
Proof. repeat split. Qed.

(** C5, amended.  Every record that the extraction produces has the keys
    PubMedID, Title, Publication Date, Authors, Non-academic Authors, Company
    Affiliations, Email, in this order, whatever the authors and affiliations
    found.  No key is left out for absent data: PubMedID and Title are [None]
    exactly when the article has no such node; the five other values are
    always strings, "Unknown" for an article without PubDate, the empty
    string for the three lists of an article without authors, and
    "Not Available" for its email. *)
Theorem record_key_set (article : Element) (p : paper) :
  parse_article article = Ok p ->
  dict_keys p = Spec.record_keys /\
  (dict_get p "PubMedID" = Some None <-> ET.find_desc "PMID" article = None) /\
  (dict_get p "Title" = Some None
   <-> ET.find_desc "ArticleTitle" article = None) /\
  (exists pmid title, dict_get p "PubMedID" = Some pmid
                      /\ dict_get p "Title" = Some title) /\
  (forall k, In k ["Publication Date"; "Authors"; "Non-academic Authors";
                   "Company Affiliations"; "Email"] ->
             exists s, dict_get p k = Some (Some s)) /\
  (ET.find_desc "PubDate" article = None ->
   dict_get p "Publication Date" = Some (Some "Unknown")) /\
  (Spec.authors_of article = [] ->
   dict_get p "Authors" = Some (Some "") /\
   dict_get p "Non-academic Authors" = Some (Some "") /\
   dict_get p "Company Affiliations" = Some (Some "") /\
   dict_get p "Email" = Some (Some "Not Available")).
Proof.
  rewrite parse_article_spec.
  destruct (Spec.article_has_texts article); [|discriminate].
  intros [= <-]. unfold Spec.record_of. cbn [dict_get String.eqb Ascii.eqb Bool.eqb].
  repeat split.
  - unfold ET.findtext_desc. destruct (ET.find_desc "PMID" article);
      [discriminate | reflexivity].
  - unfold ET.findtext_desc. intros ->. reflexivity.
  - unfold ET.findtext_desc. destruct (ET.find_desc "ArticleTitle" article);
      [discriminate | reflexivity].
  - unfold ET.findtext_desc. intros ->. reflexivity.
  - eauto.
  - intros k Hk. cbn [In] in Hk.
    repeat (destruct Hk as [<- | Hk]; [cbn; eauto|]). contradiction.
  - unfold publication_date. now intros ->.
  - now rewrite H.
  - now rewrite H.
  - now rewrite H.
  - now rewrite H.
Qed.

Lemma record_key_set_witness :
  dict_keys Sample.bare_record = Spec.record_keys /\
  dict_get Sample.bare_record "Email" = Some (Some "Not Available").
Proof.
  pose proof (record_key_set Sample.bare_article Sample.bare_record eq_refl)
    as [Hkeys [_ [_ [_ [_ [_ Hnone]]]]]].
  split; [exact Hkeys | exact (proj2 (proj2 (proj2 (Hnone eq_refl))))].
Defined.

(** The extraction of an article returns when every Affiliation that it
    reads has text. *)
Lemma parse_article_returns (article : Element) :
  Spec.article_has_texts article = true ->
  parse_article article = Ok (Spec.record_of article).
Proof. intros H. now rewrite parse_article_spec, H. Qed.

(** C6.  In the record of an article: Authors is the full names of all its
    authors joined by ", "; Non-academic Authors the names of the
    non-academic ones joined by ", "; Company Affiliations their affiliation
    texts joined by "; "; Email the first of the emails collected, in the
    order of the authors, or "Not Available" when none was collected. *)
Theorem record_aggregates (article : Element) (p : paper) :
  parse_article article = Ok p ->
  let l := Spec.authors_of article in
  dict_get p "Authors" = Some (Some (Str.join ", " (map fullname_of l))) /\
  dict_get p "Non-academic Authors" =
    Some (Some (Str.join ", "
                  (map fullname_of (filter Spec.non_academic l)))) /\
  dict_get p "Company Affiliations" =
    Some (Some (Str.join "; "
                  (map Spec.affiliation_or_empty
                       (filter Spec.non_academic l)))) /\
  dict_get p "Email" =
    Some (Some (match flat_map Spec.email_of l with
                | e :: _ => e
                | [] => "Not Available"
                end)).
Proof.
  rewrite parse_article_spec.
  destruct (Spec.article_has_texts article); [|discriminate].
  intros [= <-]. repeat split.
Qed.

(** The email of the record of an article whose first author has none is
    that of a later author. *)
Lemma record_aggregates_witness :
  exists p,
    parse_article Sample.two_authors_article = Ok p /\
    dict_get p "Authors" = Some (Some "Ann Roe, Jane Doe") /\
    dict_get p "Non-academic Authors" = Some (Some "Jane Doe") /\
    dict_get p "Company Affiliations" = Some (Some Sample.jane_affiliation) /\
    dict_get p "Email" = Some (Some "jane@acme.com").
Proof.
  eexists. split; [reflexivity|].
  exact (record_aggregates Sample.two_authors_article _ eq_refl).
Defined.


(** ** The reader, by lines and by characters *)






(** ** Reading back what the writer wrote *)
























Lemma append_empty (a b : string) : a +:+ b = "" -> a = "" /\ b = "".
Proof. destruct a; [auto | discriminate]. Qed.







(** ** The dictionary writer *)

Lemma mem_In (k : string) (l : list string) :
  DictWriter.mem k l = true <-> In k l.
Proof.
  unfold DictWriter.mem. rewrite existsb_exists. split.
  - intros [x [Hx E]]. apply String.eqb_eq in E. now subst.
  - intros H. exists k. split; [exact H | apply String.eqb_refl].
Qed.

Lemma no_extra_keys (keys l : list string) :
  incl l keys ->
  existsb (fun k => negb (DictWriter.mem k keys)) l = false.
Proof.
  intros H. apply not_true_is_false. intros E.
  apply existsb_exists in E as [k [Hk E]].
  apply H, mem_In in Hk. now rewrite Hk in E.
Qed.

Lemma header_get (l : list string) (key : string) :
  In key l -> dict_get (map (fun k => (k, Some k)) l) key = Some (Some key).
Proof.
  induction l as [|k l IH]; intros H; [contradiction|].
  cbn [map dict_get]. destruct (String.eqb k key) eqn:E.
  - apply String.eqb_eq in E. now subst.
  - apply IH. destruct H as [-> | H]; [|exact H].
    now rewrite String.eqb_refl in E.
Qed.

(** The header row is the field names themselves. *)
Lemma header_to_list (keys : list string) :
  DictWriter.dict_to_list keys (map (fun k => (k, Some k)) keys)
    = Ok (map Some keys).
Proof.
  unfold DictWriter.dict_to_list, dict_keys.
  rewrite map_map. cbn [fst]. rewrite map_id.
  rewrite no_extra_keys by apply incl_refl.
  f_equal. apply map_ext_in. intros k Hk. now rewrite header_get.
Qed.

Lemma dict_get_fresh {V} (p : dict V) (k : string) :
  ~ In k (dict_keys p) -> dict_get p k = None.
Proof.
  induction p as [|[k' v] p IH]; intros H; [reflexivity|].
  cbn [dict_get]. destruct (String.eqb k' k) eqn:E.
  - apply String.eqb_eq in E. subst. exfalso. apply H. now left.
  - apply IH. intros Hin. apply H. now right.
Qed.

Lemma dict_get_own (p : paper) :
  NoDup (dict_keys p) ->
  map (fun key => match dict_get p key with
                  | Some v => v
                  | None => Some ""
                  end) (dict_keys p) = map snd p.
Proof.
  induction p as [|[k v] p IH]; intros H; [reflexivity|].
  cbn [dict_keys map fst snd] in *. inversion H as [|? ? Hk Hp]; subst.
  cbn [dict_get]. rewrite String.eqb_refl. f_equal.
  rewrite <- (IH Hp). apply map_ext_in. intros k' Hk'.
  destruct (String.eqb k k') eqn:E; [|reflexivity].
  apply String.eqb_eq in E. now subst.
Qed.

(** A row whose keys are the field names, each once, is written as its
    values, in the order of the fields. *)
Lemma row_to_list (keys : list string) (p : paper) :
  NoDup keys -> dict_keys p = keys ->
  DictWriter.dict_to_list keys p = Ok (map snd p).
Proof.
  intros Hnd <-. unfold DictWriter.dict_to_list.
  rewrite no_extra_keys by apply incl_refl.
  now rewrite dict_get_own.
Qed.

(** ** The file that a writer leaves *)

Lemma set_file_same (name content : string) (fs : string -> option string) :
  set_file name content fs name = Some content.
Proof. unfold set_file. now rewrite String.eqb_refl. Qed.

Lemma set_file_other (name content : string) (fs : string -> option string)
  (n : string) :
  n <> name -> set_file name content fs n = fs n.
Proof.
  intros H. unfold set_file. destruct (String.eqb n name) eqn:E;
    [apply String.eqb_eq in E; contradiction | reflexivity].
Qed.

Lemma writerow_eq (filename : string) (keys : list string) (row : paper)
  (w : World) :
  DictWriter.writerow filename keys row w =
    match DictWriter.dict_to_list keys row with
    | Ok vals => file_write filename (Csv.format_row vals) w
    | Raise e => (Raise e, w)
    end.
Proof.
  unfold DictWriter.writerow, bindM, lift.
  now destruct (DictWriter.dict_to_list keys row).
Qed.

Lemma writerows_cons (filename : string) (keys : list string) (row : paper)
  (rows : list paper) (w : World) :
  DictWriter.writerows filename keys (row :: rows) w =
    match DictWriter.writerow filename keys row w with
    | (Ok _, w') => DictWriter.writerows filename keys rows w'
    | (Raise e, w') => (Raise e, w')
    end.
Proof. reflexivity. Qed.

Lemma file_write_eq (filename data old : string) (w : World) :
  files w filename = Some old ->
  file_write filename data w =
    (Ok tt, {| stdout := stdout w; requests := requests w;
               files := set_file filename (old +:+ data) (files w) |}).
Proof. intros H. unfold file_write. now rewrite H. Qed.


(** Rows that do not raise are written one after the other; nothing else
    changes. *)
Lemma writerows_ok (filename : string) (keys : list string)
  (rows : list paper) : forall (vals : list (list (option string)))
  (w : World) (old : string),
  files w filename = Some old ->
  Forall2 (fun row v => DictWriter.dict_to_list keys row = Ok v) rows vals ->
  exists w',
    DictWriter.writerows filename keys rows w = (Ok tt, w') /\
    files w' filename = Some (old +:+ Csv.format_rows vals) /\
    stdout w' = stdout w /\ requests w' = requests w /\
    (forall n, n <> filename -> files w' n = files w n).
Proof.
  induction rows as [|row rows IH]; intros vals w old H Hrows;
    inversion Hrows as [|? v ? vs Hrow Hrest]; subst.
  - exists w. cbn. rewrite append_nil_r. auto.
  - rewrite writerows_cons, writerow_eq, Hrow, (file_write_eq _ _ _ _ H).
    destruct (IH vs {| stdout := stdout w; requests := requests w;
                       files := set_file filename
                                  (old +:+ Csv.format_row v) (files w) |}
                (old +:+ Csv.format_row v) (set_file_same _ _ _) Hrest)
      as [w' [Hw' [Hf [Ho [Hr Hn]]]]].
    exists w'. rewrite Hw'. cbn [Csv.format_rows]. rewrite <- append_assoc.
    repeat split; auto.
    intros n Hne. rewrite (Hn n Hne). cbn [files].
    now apply set_file_other.
Qed.


(** ** The two writers *)

Lemma get_paper_save_to_csv_rows (can_open : string -> bool) (p : paper)
  (ps : list paper) (filename : string) :
  GetPaper.save_to_csv can_open (p :: ps) filename
    = write_table can_open GetPaper.keys (p :: ps) filename.
Proof. reflexivity. Qed.

Lemma cli_save_to_csv_rows (can_open : string -> bool) (p : paper)
  (ps : list paper) (filename : string) :
  Cli.save_to_csv can_open (p :: ps) filename
    = write_table can_open (dict_keys p) (p :: ps) filename.
Proof. reflexivity. Qed.

(** A name that cannot be opened: OSError, and the world is as it was. *)
Lemma write_table_closed (can_open : string -> bool) (keys : list string)
  (parsed_data : list paper) (filename : string) (w : World) :
  can_open filename = false ->
  write_table can_open keys parsed_data filename w = (Raise OSError, w).
Proof. intros H. unfold write_table, bindM at 1, open_w. now rewrite H. Qed.

Lemma write_table_header (can_open : string -> bool) (keys : list string)
  (parsed_data : list paper) (filename : string) (w : World) :
  can_open filename = true ->
  write_table can_open keys parsed_data filename w =
    match DictWriter.writerows filename keys parsed_data
            {| stdout := stdout w; requests := requests w;
               files := set_file filename
                          ("" +:+ Csv.format_row (map Some keys))
                          (set_file filename "" (files w)) |} with
    | (Ok _, w') => print ("Data saved to " +:+ filename) w'
    | (Raise e, w') => (Raise e, w')
    end.
Proof.
  intros Hopen. unfold write_table, bindM at 1, open_w. rewrite Hopen.
  unfold bindM at 1, DictWriter.writeheader.
  rewrite writerow_eq, header_to_list.
  rewrite (file_write_eq _ _ "") by (cbn [files]; apply set_file_same).
  cbn [stdout requests files]. unfold bindM.
  now destruct (DictWriter.writerows _ _ _ _) as [[[]|e] w'].
Qed.


(** The file, when it is opened and no row raises: the header and the
    rows. *)
Lemma write_table_ok (can_open : string -> bool) (keys : list string)
  (parsed_data : list paper) (vals : list (list (option string)))
  (filename : string) (w : World) :
  can_open filename = true ->
  Forall2 (fun row v => DictWriter.dict_to_list keys row = Ok v)
          parsed_data vals ->
  exists w',
    write_table can_open keys parsed_data filename w = (Ok tt, w') /\
    files w' filename = Some (Csv.format_rows (map Some keys :: vals)) /\
    stdout w' = stdout w ++ ["Data saved to " +:+ filename] /\
    requests w' = requests w /\
    (forall n, n <> filename -> files w' n = files w n).
Proof.
  intros Hopen Hrows. rewrite write_table_header by exact Hopen.
  match goal with
  | |- context [DictWriter.writerows _ _ _ ?w1] =>
      destruct (writerows_ok filename keys parsed_data vals w1
                  ("" +:+ Csv.format_row (map Some keys))
                  (set_file_same _ _ _) Hrows)
        as [w' [Hw' [Hf [Ho [Hr Hn]]]]]
  end.
  rewrite Hw'. eexists. split; [reflexivity|]. cbn [files stdout requests] in *.
  rewrite Hf, Ho, Hr. repeat split.
  intros n Hne. rewrite (Hn n Hne), !set_file_other by exact Hne.
  reflexivity.
Qed.

Lemma record_keys_NoDup : NoDup Spec.record_keys.
Proof.
  unfold Spec.record_keys.
  repeat (constructor; [cbn [In]; intuition discriminate|]). constructor.
Qed.

Lemma records_to_lists (parsed_data : list paper) :
  Forall (fun p => dict_keys p = Spec.record_keys) parsed_data ->
  Forall2 (fun row v => DictWriter.dict_to_list Spec.record_keys row = Ok v)
          parsed_data (map (map snd) parsed_data).
Proof.
  induction 1 as [|p ps Hp _ IH]; constructor; [|exact IH].
  apply row_to_list; [apply record_keys_NoDup | exact Hp].
Qed.





(** The two writers run the same lines on records that have the fixed
    keys. *)
Lemma writers_same (can_open : string -> bool) (parsed_data : list paper)
  (filename : string) (w : World) :
  parsed_data <> [] ->
  Forall (fun p => dict_keys p = Spec.record_keys) parsed_data ->
  Cli.save_to_csv can_open parsed_data filename w
    = GetPaper.save_to_csv can_open parsed_data filename w.
Proof.
  intros Hne Hkeys. destruct parsed_data as [|p ps]; [contradiction|].
  rewrite cli_save_to_csv_rows, get_paper_save_to_csv_rows.
  inversion Hkeys as [|? ? Hp _]; subst. now rewrite Hp.
Qed.

(** What the writer of get_paper.py does with records that have the fixed
    keys, when the file is opened. *)
Lemma writers_on_records (can_open : string -> bool)
  (parsed_data : list paper) (filename : string) (w : World) :
  parsed_data <> [] ->
  Forall (fun p => dict_keys p = Spec.record_keys) parsed_data ->
  can_open filename = true ->
  exists w',
    GetPaper.save_to_csv can_open parsed_data filename w = (Ok tt, w') /\
    files w' filename =
      Some (Csv.format_rows
              (map Some Spec.record_keys :: map (map snd) parsed_data)) /\
    stdout w' = stdout w ++ ["Data saved to " +:+ filename] /\
    requests w' = requests w /\
    (forall n, n <> filename -> files w' n = files w n).
Proof.
  intros Hne Hkeys Hopen. destruct parsed_data as [|p ps]; [contradiction|].
  rewrite get_paper_save_to_csv_rows.
  apply write_table_ok; [exact Hopen | apply records_to_lists, Hkeys].
Qed.

(** C10.  For a sequence of records that is not empty and whose records all
    have the keys PubMedID, Title, Publication Date, Authors, Non-academic
    Authors, Company Affiliations, Email in this order, the writer with the
    fixed columns and the writer that takes the columns from the first
    record do the same: the same result, the same lines printed, and the
    same content in the file of the name given.  That content is there
    when the name can be opened; when it cannot, both raise OSError and
    leave the world as it was. *)
Theorem writers_agree (can_open : string -> bool) (parsed_data : list paper)
  (filename : string) (w : World) :
  parsed_data <> [] ->
  Forall (fun p => dict_keys p = Spec.record_keys) parsed_data ->
  Cli.save_to_csv can_open parsed_data filename w
    = GetPaper.save_to_csv can_open parsed_data filename w /\
  (can_open filename = true ->
   exists content,
     files (snd (Cli.save_to_csv can_open parsed_data filename w)) filename
       = Some content /\
     files (snd (GetPaper.save_to_csv can_open parsed_data filename w))
       filename = Some content) /\
  (can_open filename = false ->
   Cli.save_to_csv can_open parsed_data filename w = (Raise OSError, w) /\
   GetPaper.save_to_csv can_open parsed_data filename w
     = (Raise OSError, w)).
Proof.
  intros Hne Hkeys.
  pose proof (writers_same can_open parsed_data filename w Hne Hkeys) as E.
  split; [exact E|]. split; intros Hopen.
  - destruct (writers_on_records can_open parsed_data filename w Hne Hkeys
                Hopen) as [w' [Hw' [Hf _]]].
    rewrite E, Hw'. eauto.
  - rewrite E. destruct parsed_data as [|p ps]; [contradiction|].
    rewrite get_paper_save_to_csv_rows.
    split; now apply write_table_closed.
Qed.

Lemma writers_agree_witness :
  Cli.save_to_csv Sample.can_open [Sample.bare_record] "results.csv"
    Sample.world
    = GetPaper.save_to_csv Sample.can_open [Sample.bare_record]
        "results.csv" Sample.world.
Proof.
  refine (proj1 (writers_agree Sample.can_open [Sample.bare_record]
                   "results.csv" Sample.world _ _)).
  - discriminate.
  - repeat constructor.
Defined.

(** ** Writing and reading back *)






(** ** The pipeline *)

(** A search that returns a value has sent its request and has printed
    nothing. *)
Lemma fetch_pubmed_data_effect (http_get : request -> http_outcome)
  (q : string) (n : Z) (w : World) (v : json) :
  fst (fetch_pubmed_data http_get q n w) = Ok (Some v) ->
  snd (fetch_pubmed_data http_get q n w) =
    {| stdout := stdout w;
       requests := requests w ++ [Spec.search_request q n];
       files := files w |}.
Proof.
  unfold fetch_pubmed_data, bindM at 1, requests_get.
  fold (Spec.search_request q n).
  destruct (http_get (Spec.search_request q n))
    as [msg | [e|] body [e'|data]]; try discriminate.
  unfold bindM, lift.
  destruct (Py.get data "esearchresult" (JObj [])) as [er|]; [|discriminate].
  destruct (Py.get er "idlist" (JArr [])) as [ids|]; [|discriminate].
  reflexivity.
Qed.

(** C9.  When the search returns no identifier, [main] sends no request
    but that of the search, prints "No papers found for the query." after
    its first line, writes no file and ends without raising. *)
Theorem main_no_papers (http_get : request -> http_outcome)
  (fromstring : string -> option Element) (can_open : string -> bool)
  (args : Args) (w : World) :
  Spec.search_returns http_get (query args) (number args) (Some (JArr [])) ->
  main http_get fromstring can_open args w =
    (Ok tt,
     {| stdout := (stdout w ++ ["Fetching papers for query: " +:+ query args])
                  ++ ["No papers found for the query."];
        requests :=
          requests w ++ [Spec.search_request (query args) (number args)];
        files := files w |}).
Proof.
  intros H. unfold main, bindM at 1, print at 1. unfold bindM at 1.
  match goal with
  | |- context [fetch_pubmed_data _ _ _ ?w1] =>
      pose proof (H w1) as Hres;
      pose proof (fetch_pubmed_data_effect http_get _ _ w1 _ Hres) as Hw
  end.
  destruct (fetch_pubmed_data _ _ _ _) as [r w2].
  cbn [fst snd] in Hres, Hw. subst r w2. reflexivity.
Qed.

Lemma main_no_papers_witness :
  main Sample.http_get Sample.fromstring Sample.can_open Sample.args
    Sample.world =
    (Ok tt,
     {| stdout := ["Fetching papers for query: no such paper";
                   "No papers found for the query."];
        requests := [Spec.search_request "no such paper" 10];
        files := files Sample.world |}).
Proof.
  refine (main_no_papers Sample.http_get Sample.fromstring Sample.can_open
            Sample.args Sample.world _).
  intros w. reflexivity.
Defined.

(** * Further properties *)

(** ** The search *)

Lemma fetch_pubmed_data_sends (http_get : request -> http_outcome)
  (q : string) (n : Z) (w : World) :
  fetch_pubmed_data http_get q n w =
    match http_get (Spec.search_request q n) with
    | GetReturns None _ (inr data) =>
        match Py.get data "esearchresult" (JObj []) with
        | Ok er =>
            match Py.get er "idlist" (JArr []) with
            | Ok ids =>
                (Ok (Py.nullable ids),
                 Net.after w [] [Spec.search_request q n])
            | Raise e => (Raise e, Net.after w [] [Spec.search_request q n])
            end
        | Raise e => (Raise e, Net.after w [] [Spec.search_request q n])
        end
    | o =>
        match Net.search_error o with
        | Some msg =>
            (Ok None, Net.after w ["Error fetching PubMed data: " +:+ msg]
                        [Spec.search_request q n])
        | None => (Ok None, w)
        end
    end.
Proof.
  unfold fetch_pubmed_data, bindM at 1, requests_get.
  fold (Spec.search_request q n).
  destruct (http_get (Spec.search_request q n))
    as [msg | [e|] body [e'|data]]; try reflexivity.
  unfold bindM, lift, ret, Net.after. cbn [stdout requests files].
  rewrite app_nil_r.
  destruct (Py.get data "esearchresult" (JObj [])) as [er|]; [|reflexivity].
  now destruct (Py.get er "idlist" (JArr [])).
Qed.

(** X1.  A search that fails, whether the call raises, the status is an
    error or the body is not JSON, ends without raising: it returns [None]
    after one request and one line on the console, the message of the
    failure.  [None] is returned in one more case, and then without a line
    printed: when the "idlist" of the response is the null of JSON. *)
Theorem search_failure_is_none (http_get : request -> http_outcome)
  (q : string) (n : Z) (w : World) :
  (forall msg,
      Net.search_error (http_get (Spec.search_request q n)) = Some msg ->
      fetch_pubmed_data http_get q n w =
        (Ok None, Net.after w ["Error fetching PubMed data: " +:+ msg]
                    [Spec.search_request q n])) /\
  (forall body data er,
      http_get (Spec.search_request q n) = GetReturns None body (inr data) ->
      Py.get data "esearchresult" (JObj []) = Ok er ->
      Py.get er "idlist" (JArr []) = Ok JNull ->
      fetch_pubmed_data http_get q n w =
        (Ok None, Net.after w [] [Spec.search_request q n])) /\
  (fst (fetch_pubmed_data http_get q n w) = Ok None ->
   (exists msg,
       Net.search_error (http_get (Spec.search_request q n)) = Some msg)
   \/ (exists body data er,
          http_get (Spec.search_request q n)
            = GetReturns None body (inr data) /\
          Py.get data "esearchresult" (JObj []) = Ok er /\
          Py.get er "idlist" (JArr []) = Ok JNull)).
Proof.
  rewrite fetch_pubmed_data_sends. repeat split.
  - intros msg H.
    destruct (http_get _) as [m | [e|] body [e'|data]]; cbn in H |- *;
      try discriminate; now injection H as ->.
  - intros body data er -> Her Hids. now rewrite Her, Hids.
  - destruct (http_get _) as [m | [e|] body [e'|data]]; cbn [fst];
      try (intros _; left; cbn; eauto; fail).
    destruct (Py.get data _ _) as [er|] eqn:Her; [|discriminate].
    destruct (Py.get er _ _) as [ids|] eqn:Hids; [|discriminate].
    destruct ids; try discriminate. intros _. right. eauto 6.
Qed.

Lemma search_failure_is_none_witness :
  fetch_pubmed_data Run.http_down "x" 10 Sample.world =
    (Ok None,
     Net.after Sample.world
       ["Error fetching PubMed data: connection refused"]
       [Spec.search_request "x" 10]).
Proof.
  exact (proj1 (search_failure_is_none Run.http_down "x" 10 Sample.world)
           "connection refused" eq_refl).
Defined.

(** X2.  A decoded response that is an object without "esearchresult", or
    whose "esearchresult" is an object without "idlist", is a search that
    found nothing: the empty list is returned and nothing is printed. *)
Theorem search_defaults (http_get : request -> http_outcome)
  (q : string) (n : Z) (w : World) (body : string)
  (d : list (string * json)) :
  http_get (Spec.search_request q n) = GetReturns None body (inr (JObj d)) ->
  dict_get d "esearchresult" = None
  \/ (exists er, dict_get d "esearchresult" = Some (JObj er)
                 /\ dict_get er "idlist" = None) ->
  fetch_pubmed_data http_get q n w =
    (Ok (Some (JArr [])), Net.after w [] [Spec.search_request q n]).
Proof.
  intros Hget H. rewrite fetch_pubmed_data_sends, Hget. cbn [Py.get].
  destruct H as [-> | [er [-> Her]]]; cbn [Py.get dict_get];
    now rewrite ?Her.
Qed.

Lemma search_defaults_witness :
  fetch_pubmed_data Run.http_bare "x" 10 Sample.world =
    (Ok (Some (JArr [])),
     Net.after Sample.world [] [Spec.search_request "x" 10]).
Proof.
  refine (search_defaults Run.http_bare "x" 10 Sample.world "{}" []
            eq_refl _).
  now left.
Defined.



(** ** The fetch *)

Lemma fetch_paper_details_sends (http_get : request -> http_outcome)
  (v : json) (w : World) :
  fetch_paper_details http_get v w =
    match Py.join "," v with
    | Raise e => (Raise e, w)
    | Ok ids =>
        match http_get (Net.fetch_request ids) with
        | GetReturns None body _ =>
            (Ok (Some body), Net.after w [] [Net.fetch_request ids])
        | o =>
            match Net.fetch_error o with
            | Some msg =>
                (Ok None,
                 Net.after w ["Error fetching paper details: " +:+ msg]
                   [Net.fetch_request ids])
            | None => (Ok None, w)
            end
        end
    end.
Proof.
  unfold fetch_paper_details, bindM at 1, lift.
  destruct (Py.join "," v) as [ids|e]; [|reflexivity].
  unfold bindM at 1, requests_get. fold (Net.fetch_request ids).
  destruct (http_get (Net.fetch_request ids)) as [msg | [e|] body dec];
    try reflexivity.
  unfold ret, Net.after. cbn [stdout requests files]. now rewrite app_nil_r.
Qed.

Lemma strs_of_strings (ids : list string) :
  Py.strs_of (map JStr ids) = Ok ids.
Proof.
  induction ids as [|x ids IH]; [reflexivity|].
  cbn [map Py.strs_of]. now rewrite IH.
Qed.

Lemma split_commas_piece (x : string) : forall (cur s : string),
  Net.no_comma x = true ->
  Net.split_commas_from cur (x +:+ s) = Net.split_commas_from (cur +:+ x) s.
Proof.
  induction x as [|c x IH]; intros cur s H.
  - now rewrite append_nil_r.
  - cbn in H. apply andb_true_iff in H as [Hc Hx].
    apply negb_true_iff in Hc. cbn [String.append Net.split_commas_from].
    now rewrite Hc, IH, append_snoc.
Qed.

Lemma join_cons (sep x y : string) (l : list string) :
  Str.join sep (x :: y :: l) = x +:+ sep +:+ Str.join sep (y :: l).
Proof. reflexivity. Qed.

(** Joining with commas and splitting at the commas gives the list back. *)
Lemma split_commas_join (ids : list string) : forall (cur : string),
  ids <> [] -> forallb Net.no_comma ids = true ->
  Net.split_commas_from cur (Str.join "," ids) =
    match ids with
    | x :: l => (cur +:+ x) :: l
    | [] => []
    end.
Proof.
  induction ids as [|x ids IH]; intros cur Hne H; [contradiction|].
  cbn [forallb] in H. apply andb_true_iff in H as [Hx H].
  destruct ids as [|y ids].
  - cbn [Str.join String.concat].
    rewrite <- (append_nil_r x) at 1. now rewrite split_commas_piece.
  - rewrite join_cons, split_commas_piece by exact Hx.
    cbn [String.append Net.split_commas_from Ascii.eqb Bool.eqb].
    now rewrite IH by (auto; discriminate).
Qed.

(** X4.  For a list of N identifiers, N at least one and none with a comma
    in it, the fetch sends one request, to the fetch address, and what its
    "id" parameter holds, split at its commas, is the N identifiers in their
    order. *)
Theorem fetch_request_ids (http_get : request -> http_outcome)
  (ids : list string) (w : World) :
  ids <> [] -> forallb Net.no_comma ids = true ->
  exists joined,
    requests (snd (fetch_paper_details http_get (JArr (map JStr ids)) w))
      = requests w ++ [Net.fetch_request joined] /\
    Net.split_commas joined = ids /\
    length (Net.split_commas joined) = length ids.
Proof.
  intros Hne H. exists (Str.join "," ids).
  assert (E : Net.split_commas (Str.join "," ids) = ids).
  { unfold Net.split_commas. rewrite split_commas_join by assumption.
    now destruct ids. }
  rewrite E. repeat split.
  rewrite fetch_paper_details_sends. cbn [Py.join].
  rewrite strs_of_strings. cbn [bind].
  destruct (http_get _) as [msg | [e|] body dec]; reflexivity.
Qed.

Lemma fetch_request_ids_witness :
  exists joined,
    requests (snd (fetch_paper_details Run.http_get
                     (JArr (map JStr ["1"; "22"])) Sample.world))
      = requests Sample.world ++ [Net.fetch_request joined] /\
    Net.split_commas joined = ["1"; "22"] /\
    length (Net.split_commas joined) = 2.
Proof.
  refine (fetch_request_ids Run.http_get ["1"; "22"] Sample.world _ eq_refl).
  discriminate.
Defined.

(** X5.  Once the identifiers are joined, the fetch does not raise.  On a
    response without error it returns the body as it is, empty or not, and
    prints nothing; when the call raises or the status is an error it
    returns [None] after one line on the console, the message of the
    failure.  One request is sent in both cases. *)
Theorem fetch_outcome (http_get : request -> http_outcome)
  (v : json) (joined : string) (w : World) :
  Py.join "," v = Ok joined ->
  (forall body decoded,
      http_get (Net.fetch_request joined) = GetReturns None body decoded ->
      fetch_paper_details http_get v w =
        (Ok (Some body), Net.after w [] [Net.fetch_request joined])) /\
  (forall msg,
      Net.fetch_error (http_get (Net.fetch_request joined)) = Some msg ->
      fetch_paper_details http_get v w =
        (Ok None, Net.after w ["Error fetching paper details: " +:+ msg]
                    [Net.fetch_request joined])).
Proof.
  intros Hj. rewrite fetch_paper_details_sends, Hj. split.
  - now intros body decoded ->.
  - intros msg H.
    destruct (http_get _) as [m | [e|] body dec]; cbn in H |- *;
      try discriminate; now injection H as ->.
Qed.

Lemma fetch_outcome_witness :
  fetch_paper_details Run.http_no_fetch (JArr [JStr "1"; JStr "22"])
    Sample.world =
    (Ok None,
     Net.after Sample.world
       ["Error fetching paper details: 500 Server Error"]
       [Net.fetch_request "1,22"]).
Proof.
  exact (proj2 (fetch_outcome Run.http_no_fetch (JArr [JStr "1"; JStr "22"])
                  "1,22" Sample.world eq_refl)
           "500 Server Error" eq_refl).
Defined.

Lemma strs_of_not_string (l : list json) :
  existsb (fun j => negb (Net.is_str j)) l = true ->
  Py.strs_of l = Raise TypeError.
Proof.
  induction l as [|j l IH]; [discriminate|].
  cbn [existsb]. destruct j; cbn; try reflexivity.
  intros H. now rewrite (IH H).
Qed.

(** X6.  The identifiers are joined before the [try]: a list in which some
    identifier is not a string makes the fetch raise TypeError, and then no
    request is sent and nothing is printed. *)
Theorem fetch_not_strings (http_get : request -> http_outcome)
  (l : list json) (w : World) :
  existsb (fun j => negb (Net.is_str j)) l = true ->
  fetch_paper_details http_get (JArr l) w = (Raise TypeError, w).
Proof.
  intros H. rewrite fetch_paper_details_sends. cbn [Py.join].
  now rewrite (strs_of_not_string l H).
Qed.

Lemma fetch_not_strings_witness :
  fetch_paper_details Run.http_get (JArr [JStr "1"; JNum 22]) Sample.world
    = (Raise TypeError, Sample.world).
Proof.
  exact (fetch_not_strings Run.http_get [JStr "1"; JNum 22] Sample.world
           eq_refl).
Defined.

(** ** The pipeline, branch by branch *)

(** [main], one step after the other. *)
Lemma main_steps (http_get : request -> http_outcome)
  (fromstring : string -> option Element) (can_open : string -> bool)
  (args : Args) (w : World) :
  main http_get fromstring can_open args w =
    match fetch_pubmed_data http_get (query args) (number args)
            (Net.after w ["Fetching papers for query: " +:+ query args] [])
    with
    | (Raise e, w2) => (Raise e, w2)
    | (Ok None, w2) => print "No papers found for the query." w2
    | (Ok (Some ids), w2) =>
        if Py.truthy (Some ids) then
          match Py.len ids with
          | Raise e => (Raise e, w2)
          | Ok k =>
              match fetch_paper_details http_get ids
                      (Net.after w2
                         ["Found " +:+ Str.of_nat k +:+ " papers."] [])
              with
              | (Raise e, w4) => (Raise e, w4)
              | (Ok None, w4) => print "Failed to fetch paper details." w4
              | (Ok (Some xml), w4) =>
                  if Str.is_empty xml
                  then print "Failed to fetch paper details." w4
                  else
                    match parse_paper_details fromstring xml with
                    | Raise e => (Raise e, w4)
                    | Ok parsed_data =>
                        GetPaper.save_to_csv can_open parsed_data (file args) w4
                    end
              end
          end
        else print "No papers found for the query." w2
    end.
Proof.
  unfold main, bindM at 1, print at 1. unfold bindM at 1.
  replace {| stdout := stdout w ++ ["Fetching papers for query: " +:+ query args];
             requests := requests w; files := files w |}
    with (Net.after w ["Fetching papers for query: " +:+ query args] [])
    by (unfold Net.after; now rewrite app_nil_r).
  destruct (fetch_pubmed_data _ _ _ _) as [[[ids|]|e] w2]; try reflexivity.
  destruct (Py.truthy (Some ids)); [|reflexivity].
  unfold bindM at 1, lift.
  destruct (Py.len ids) as [k|e]; [|reflexivity].
  unfold bindM at 1, print at 1. unfold bindM at 1.
  replace {| stdout := stdout w2 ++ ["Found " +:+ Str.of_nat k +:+ " papers."];
             requests := requests w2; files := files w2 |}
    with (Net.after w2 ["Found " +:+ Str.of_nat k +:+ " papers."] [])
    by (unfold Net.after; now rewrite app_nil_r).
  destruct (fetch_paper_details _ _ _) as [[[xml|]|e] w4]; try reflexivity.
  unfold is_true_text. destruct (Str.is_empty xml); cbn [negb]; [reflexivity|].
  unfold bindM, lift.
  now destruct (parse_paper_details fromstring xml).
Qed.

Lemma after_after (w : World) (l1 l2 : list string) (r1 r2 : list request) :
  Net.after (Net.after w l1 r1) l2 r2 = Net.after w (l1 ++ l2) (r1 ++ r2).
Proof.
  unfold Net.after. cbn [stdout requests files]. now rewrite !app_assoc.
Qed.

Lemma print_after (w : World) (line : string) :
  print line w = (Ok tt, Net.after w [line] []).
Proof. unfold print, Net.after. now rewrite app_nil_r. Qed.

(** A search that finds [l] returns it after its request. *)
Lemma finds_returns (http_get : request -> http_outcome) (q : string)
  (n : Z) (l : list string) (w : World) :
  Net.finds http_get q n l ->
  fetch_pubmed_data http_get q n w =
    (Ok (Some (JArr (map JStr l))), Net.after w [] [Spec.search_request q n]).
Proof.
  intros [body [d [er [Hget [Her Hl]]]]].
  rewrite fetch_pubmed_data_sends, Hget. cbn [Py.get].
  rewrite Her. cbn [Py.get]. now rewrite Hl.
Qed.

Lemma truthy_strings (l : list string) :
  l <> [] -> Py.truthy (Some (JArr (map JStr l))) = true.
Proof. destruct l; [contradiction | reflexivity]. Qed.

(** [main] up to the response of the fetch, for a search that finds
    identifiers. *)
Lemma main_found (http_get : request -> http_outcome)
  (fromstring : string -> option Element) (can_open : string -> bool)
  (args : Args) (w : World)
  (l : list string) :
  Net.finds http_get (query args) (number args) l -> l <> [] ->
  let found := "Found " +:+ Str.of_nat (length l) +:+ " papers." in
  let fetch := Net.fetch_request (Str.join "," l) in
  let w4 := fun lines =>
    Net.after w (("Fetching papers for query: " +:+ query args)
                 :: found :: lines)
      [Spec.search_request (query args) (number args); fetch] in
  main http_get fromstring can_open args w =
    match http_get fetch with
    | GetReturns None xml _ =>
        if Str.is_empty xml
        then (Ok tt, w4 ["Failed to fetch paper details."])
        else
          match parse_paper_details fromstring xml with
          | Raise e => (Raise e, w4 [])
          | Ok parsed_data =>
              GetPaper.save_to_csv can_open parsed_data (file args) (w4 [])
          end
    | o =>
        match Net.fetch_error o with
        | Some msg =>
            (Ok tt, w4 ["Error fetching paper details: " +:+ msg;
                        "Failed to fetch paper details."])
        | None => (Ok tt, w)
        end
    end.
Proof.
  intros Hf Hne found fetch w4.
  rewrite main_steps, (finds_returns _ _ _ _ _ Hf), (truthy_strings l Hne).
  cbn [Py.len]. rewrite length_map, fetch_paper_details_sends.
  cbn [Py.join]. rewrite strs_of_strings. cbn [bind].
  fold found. fold fetch. subst w4.
  destruct (http_get fetch) as [msg | [e|] xml dec]; cbn [Net.fetch_error];
    rewrite ?print_after, !after_after; cbn [app]; try reflexivity.
Qed.

(** X7.  When the search fails, [main] prints the message of the failure
    and then "No papers found for the query.", sends nothing but the
    request of the search, leaves the files alone and ends without
    raising. *)
Theorem main_search_fails (http_get : request -> http_outcome)
  (fromstring : string -> option Element) (can_open : string -> bool)
  (args : Args) (w : World)
  (msg : string) :
  Net.search_error
    (http_get (Spec.search_request (query args) (number args))) = Some msg ->
  main http_get fromstring can_open args w =
    (Ok tt,
     Net.after w
       ["Fetching papers for query: " +:+ query args;
        "Error fetching PubMed data: " +:+ msg;
        "No papers found for the query."]
       [Spec.search_request (query args) (number args)]).
Proof.
  intros H. rewrite main_steps, fetch_pubmed_data_sends.
  destruct (http_get _) as [m | [e|] body [e'|data]]; cbn in H |- *;
    try discriminate; injection H as ->;
    now rewrite print_after, !after_after.
Qed.

Lemma main_search_fails_witness :
  main Run.http_down Sample.fromstring Sample.can_open Sample.args Sample.world =
    (Ok tt,
     Net.after Sample.world
       ["Fetching papers for query: no such paper";
        "Error fetching PubMed data: connection refused";
        "No papers found for the query."]
       [Spec.search_request "no such paper" 10]).
Proof.
  exact (main_search_fails Run.http_down Sample.fromstring Sample.can_open Sample.args
           Sample.world "connection refused" eq_refl).
Defined.

(** X8.  When the search finds identifiers and the fetch fails, or returns
    an empty body, [main] prints "Failed to fetch paper details." (after the
    message of the failure, if there is one), writes no file and ends
    without raising; the document is not parsed. *)
Theorem main_fetch_fails (http_get : request -> http_outcome)
  (fromstring : string -> option Element) (can_open : string -> bool)
  (args : Args) (w : World)
  (l : list string) :
  Net.finds http_get (query args) (number args) l -> l <> [] ->
  let fetch := Net.fetch_request (Str.join "," l) in
  let sent := [Spec.search_request (query args) (number args); fetch] in
  let first := ["Fetching papers for query: " +:+ query args;
                "Found " +:+ Str.of_nat (length l) +:+ " papers."] in
  (forall msg,
      Net.fetch_error (http_get fetch) = Some msg ->
      main http_get fromstring can_open args w =
        (Ok tt,
         Net.after w
           (first ++ ["Error fetching paper details: " +:+ msg;
                      "Failed to fetch paper details."]) sent)) /\
  (forall decoded,
      http_get fetch = GetReturns None "" decoded ->
      main http_get fromstring can_open args w =
        (Ok tt,
         Net.after w (first ++ ["Failed to fetch paper details."]) sent)).
Proof.
  intros Hf Hne fetch sent first.
  rewrite (main_found _ fromstring can_open _ w _ Hf Hne). fold fetch. split.
  - intros msg H.
    destruct (http_get fetch) as [m | [e|] body dec]; cbn in H |- *;
      try discriminate; now injection H as ->.
  - now intros decoded ->.
Qed.

Lemma main_fetch_fails_witness :
  main Run.http_no_fetch Sample.fromstring Sample.can_open Sample.args Sample.world =
    (Ok tt,
     Net.after Sample.world
       ["Fetching papers for query: no such paper";
        "Found 2 papers.";
        "Error fetching paper details: 500 Server Error";
        "Failed to fetch paper details."]
       [Spec.search_request "no such paper" 10;
        Net.fetch_request "1,22"]).
Proof.
  refine (proj1 (main_fetch_fails Run.http_no_fetch Sample.fromstring Sample.can_open
                   Sample.args Sample.world ["1"; "22"] _ _)
            "500 Server Error" eq_refl).
  - do 3 eexists. repeat split; reflexivity.
  - discriminate.
Defined.

(** The runs in which the fetch returns a body that is not empty. *)
Lemma main_parses (http_get : request -> http_outcome)
  (fromstring : string -> option Element) (can_open : string -> bool)
  (args : Args) (w : World)
  (l : list string) (xml : string) (decoded : string + json) :
  Net.finds http_get (query args) (number args) l -> l <> [] ->
  http_get (Net.fetch_request (Str.join "," l))
    = GetReturns None xml decoded ->
  xml <> "" ->
  let w4 :=
    Net.after w
      ["Fetching papers for query: " +:+ query args;
       "Found " +:+ Str.of_nat (length l) +:+ " papers."]
      [Spec.search_request (query args) (number args);
       Net.fetch_request (Str.join "," l)] in
  main http_get fromstring can_open args w =
    match parse_paper_details fromstring xml with
    | Raise e => (Raise e, w4)
    | Ok parsed_data => GetPaper.save_to_csv can_open parsed_data (file args) w4
    end.
Proof.
  intros Hf Hne Hget Hxml w4.
  rewrite (main_found _ fromstring can_open _ w _ Hf Hne), Hget.
  apply is_empty_false in Hxml. now rewrite Hxml.
Qed.



(** X10.  A document that is well formed and has no article gives no
    table: [main] prints "No data to save.", writes no file and ends without
    raising. *)
Theorem main_no_articles (http_get : request -> http_outcome)
  (fromstring : string -> option Element) (can_open : string -> bool)
  (args : Args) (w : World)
  (l : list string) (xml : string) (decoded : string + json)
  (root : Element) :
  Net.finds http_get (query args) (number args) l -> l <> [] ->
  http_get (Net.fetch_request (Str.join "," l))
    = GetReturns None xml decoded ->
  xml <> "" ->
  fromstring xml = Some root ->
  Spec.articles_of root = [] ->
  main http_get fromstring can_open args w =
    (Ok tt,
     Net.after w
       ["Fetching papers for query: " +:+ query args;
        "Found " +:+ Str.of_nat (length l) +:+ " papers.";
        "No data to save."]
       [Spec.search_request (query args) (number args);
        Net.fetch_request (Str.join "," l)]).
Proof.
  intros Hf Hne Hget Hxml Hroot Hnone.
  rewrite (main_parses _ fromstring can_open _ w _ _ _ Hf Hne Hget Hxml).
  unfold parse_paper_details. rewrite Hroot, parse_root_spec, Hnone.
  cbn [forallb map GetPaper.save_to_csv].
  now rewrite print_after, after_after.
Qed.

Lemma main_no_articles_witness :
  main (Run.http_body Run.empty_xml) Run.fromstring Sample.can_open Sample.args
    Sample.world =
    (Ok tt,
     Net.after Sample.world
       ["Fetching papers for query: no such paper"; "Found 2 papers.";
        "No data to save."]
       [Spec.search_request "no such paper" 10; Net.fetch_request "1,22"]).
Proof.
  refine (main_no_articles (Run.http_body Run.empty_xml) Run.fromstring
            Sample.can_open Sample.args Sample.world ["1"; "22"] Run.empty_xml
            (inl "not JSON") Run.empty_doc _ _ eq_refl _ eq_refl eq_refl).
  - do 3 eexists. repeat split; reflexivity.
  - discriminate.
  - discriminate.
Defined.

(** X11.  A body that is not well formed ends [main] with ParseError,
    after the two requests and the first two lines; no file is written and
    nothing is printed about the failure. *)
Theorem main_malformed (http_get : request -> http_outcome)
  (fromstring : string -> option Element) (can_open : string -> bool)
  (args : Args) (w : World)
  (l : list string) (xml : string) (decoded : string + json) :
  Net.finds http_get (query args) (number args) l -> l <> [] ->
  http_get (Net.fetch_request (Str.join "," l))
    = GetReturns None xml decoded ->
  xml <> "" ->
  fromstring xml = None ->
  main http_get fromstring can_open args w =
    (Raise ParseError,
     Net.after w
       ["Fetching papers for query: " +:+ query args;
        "Found " +:+ Str.of_nat (length l) +:+ " papers."]
       [Spec.search_request (query args) (number args);
        Net.fetch_request (Str.join "," l)]).
Proof.
  intros Hf Hne Hget Hxml Hroot.
  rewrite (main_parses _ fromstring can_open _ w _ _ _ Hf Hne Hget Hxml).
  unfold parse_paper_details. now rewrite Hroot.
Qed.

Lemma main_malformed_witness :
  main (Run.http_body Run.broken_xml) Run.fromstring Sample.can_open Sample.args
    Sample.world =
    (Raise ParseError,
     Net.after Sample.world
       ["Fetching papers for query: no such paper"; "Found 2 papers."]
       [Spec.search_request "no such paper" 10; Net.fetch_request "1,22"]).
Proof.
  refine (main_malformed (Run.http_body Run.broken_xml) Run.fromstring
            Sample.can_open Sample.args Sample.world ["1"; "22"] Run.broken_xml
            (inl "not JSON") _ _ eq_refl _ eq_refl).
  - do 3 eexists. repeat split; reflexivity.
  - discriminate.
  - discriminate.
Defined.

(** X21.  When some Affiliation read in the document has no text, [main]
    ends with TypeError after the two requests and the first two lines: no
    file is written, not even for the articles that could be extracted. *)
Theorem main_no_partial_table (http_get : request -> http_outcome)
  (fromstring : string -> option Element) (can_open : string -> bool)
  (args : Args) (w : World)
  (l : list string) (xml : string) (decoded : string + json)
  (root : Element) :
  Net.finds http_get (query args) (number args) l -> l <> [] ->
  http_get (Net.fetch_request (Str.join "," l))
    = GetReturns None xml decoded ->
  xml <> "" ->
  fromstring xml = Some root ->
  forallb Spec.article_has_texts (Spec.articles_of root) = false ->
  main http_get fromstring can_open args w =
    (Raise TypeError,
     Net.after w
       ["Fetching papers for query: " +:+ query args;
        "Found " +:+ Str.of_nat (length l) +:+ " papers."]
       [Spec.search_request (query args) (number args);
        Net.fetch_request (Str.join "," l)]).
Proof.
  intros Hf Hne Hget Hxml Hroot Htexts.
  rewrite (main_parses _ fromstring can_open _ w _ _ _ Hf Hne Hget Hxml).
  unfold parse_paper_details. now rewrite Hroot, parse_root_spec, Htexts.
Qed.

Lemma main_no_partial_table_witness :
  main (Run.http_body Sample.empty_affiliation_xml) Sample.fromstring Sample.can_open
    Sample.args Sample.world =
    (Raise TypeError,
     Net.after Sample.world
       ["Fetching papers for query: no such paper"; "Found 2 papers."]
       [Spec.search_request "no such paper" 10; Net.fetch_request "1,22"]).
Proof.
  refine (main_no_partial_table (Run.http_body Sample.empty_affiliation_xml)
            Sample.fromstring Sample.can_open Sample.args Sample.world ["1"; "22"]
            Sample.empty_affiliation_xml (inl "not JSON")
            Sample.empty_affiliation_doc _ _ eq_refl _ eq_refl eq_refl).
  - do 3 eexists. repeat split; reflexivity.
  - discriminate.
  - discriminate.
Defined.

(** ** What the program never does *)

Lemma writerows_frame (filename : string) (keys : list string)
  (rows : list paper) : forall (w : World),
  stdout (snd (DictWriter.writerows filename keys rows w)) = stdout w /\
  requests (snd (DictWriter.writerows filename keys rows w)) = requests w /\
  (forall n, n <> filename ->
             files (snd (DictWriter.writerows filename keys rows w)) n
               = files w n).
Proof.
  induction rows as [|row rows IH]; intros w; [now cbn|].
  rewrite writerows_cons, writerow_eq.
  destruct (DictWriter.dict_to_list keys row) as [vals|e]; [|now cbn].
  unfold file_write.
  match goal with
  | |- context [DictWriter.writerows _ _ _ ?w1] =>
      destruct (IH w1) as [Ho [Hr Hn]]
  end.
  rewrite Ho, Hr. repeat split.
  intros n Hne. rewrite (Hn n Hne). cbn [files]. now apply set_file_other.
Qed.

Lemma write_table_frame (can_open : string -> bool) (keys : list string)
  (parsed_data : list paper) (filename : string) (w : World) :
  requests (snd (write_table can_open keys parsed_data filename w))
    = requests w /\
  (forall n, n <> filename ->
             files (snd (write_table can_open keys parsed_data filename w)) n
               = files w n).
Proof.
  destruct (can_open filename) eqn:Hopen;
    [|now rewrite (write_table_closed _ _ _ _ _ Hopen)].
  rewrite (write_table_header _ _ _ _ _ Hopen).
  match goal with
  | |- context [DictWriter.writerows _ _ _ ?w1] =>
      destruct (writerows_frame filename keys parsed_data w1) as [_ [Hr Hn]]
  end.
  destruct (DictWriter.writerows _ _ _ _) as [[[]|e] w']; cbn [snd] in *;
    cbn [print snd requests files]; rewrite Hr; (split; [reflexivity|]);
    intros n Hne; rewrite (Hn n Hne); cbn [files];
    now rewrite !set_file_other.
Qed.

(** Whatever the records, a writer sends nothing and touches no file but
    the one that it is given. *)
Lemma save_to_csv_frame (can_open : string -> bool)
  (parsed_data : list paper) (filename : string) (w : World) :
  requests (snd (GetPaper.save_to_csv can_open parsed_data filename w))
    = requests w /\
  (forall n, n <> filename ->
             files (snd (GetPaper.save_to_csv can_open parsed_data filename w))
                   n
               = files w n).
Proof.
  destruct parsed_data as [|p ps]; [now cbn|].
  rewrite get_paper_save_to_csv_rows. apply write_table_frame.
Qed.

Lemma fetch_pubmed_data_frame (http_get : request -> http_outcome)
  (q : string) (n : Z) (w : World) :
  requests (snd (fetch_pubmed_data http_get q n w))
    = requests w ++ [Spec.search_request q n] /\
  files (snd (fetch_pubmed_data http_get q n w)) = files w.
Proof.
  rewrite fetch_pubmed_data_sends.
  destruct (http_get _) as [m | [e|] body [e'|data]]; cbn; auto.
  destruct (Py.get data _ _) as [er|]; cbn; auto.
  destruct (Py.get er _ _); cbn; auto.
Qed.

Lemma fetch_paper_details_frame (http_get : request -> http_outcome)
  (v : json) (w : World) :
  (exists reqs,
      requests (snd (fetch_paper_details http_get v w)) = requests w ++ reqs
      /\ length reqs <= 1) /\
  files (snd (fetch_paper_details http_get v w)) = files w.
Proof.
  rewrite fetch_paper_details_sends.
  destruct (Py.join "," v) as [ids|e].
  - destruct (http_get _) as [m | [e|] body dec]; cbn; split; auto;
      eexists; split; try reflexivity; cbn; lia.
  - cbn. split; auto. exists []. rewrite app_nil_r. split; auto.
Qed.

(** X12.  Whatever the network answers, whatever the parser makes of the
    body and however the run ends, [main] sends the request of the search
    first and at most one request after it, and changes no file but the one
    named on the command line. *)
Theorem main_reach (http_get : request -> http_outcome)
  (fromstring : string -> option Element) (can_open : string -> bool)
  (args : Args) (w : World) :
  (exists reqs,
      requests (snd (main http_get fromstring can_open args w)) =
        requests w
        ++ Spec.search_request (query args) (number args) :: reqs /\
      length reqs <= 1) /\
  (forall n, n <> file args ->
             files (snd (main http_get fromstring can_open args w)) n = files w n).
Proof.
  rewrite main_steps.
  match goal with
  | |- context [fetch_pubmed_data _ _ _ ?w1] =>
      destruct (fetch_pubmed_data_frame http_get (query args) (number args) w1)
        as [Hr2 Hf2];
      destruct (fetch_pubmed_data http_get (query args) (number args) w1)
        as [r2 w2]
  end.
  cbn [snd Net.after requests files] in Hr2, Hf2. rewrite app_nil_r in Hr2.
  assert (Hstop : forall line,
    (exists reqs,
        requests (snd (print line w2)) =
          requests w
          ++ Spec.search_request (query args) (number args) :: reqs /\
        length reqs <= 1) /\
    (forall n, n <> file args -> files (snd (print line w2)) n = files w n)).
  { intros line. cbn. rewrite Hr2, Hf2. split; auto.
    exists []. split; auto. }
  assert (Hraise :
    (exists reqs,
        requests w2 =
          requests w
          ++ Spec.search_request (query args) (number args) :: reqs /\
        length reqs <= 1) /\
    (forall n, n <> file args -> files w2 n = files w n)).
  { rewrite Hr2, Hf2. split; auto. exists []. split; auto. }
  destruct r2 as [[ids|]|e]; cbn [snd]; auto.
  destruct (Py.truthy (Some ids)); auto.
  destruct (Py.len ids) as [k|e]; cbn [snd]; auto.
  match goal with
  | |- context [fetch_paper_details _ _ ?w3] =>
      destruct (fetch_paper_details_frame http_get ids w3)
        as [[reqs [Hr4 Hlen]] Hf4];
      destruct (fetch_paper_details http_get ids w3) as [r4 w4]
  end.
  cbn [snd Net.after requests files] in Hr4, Hf4.
  rewrite app_nil_r, Hr2, <- app_assoc in Hr4. cbn [app] in Hr4.
  rewrite Hf2 in Hf4.
  assert (Hend : forall w5,
    requests w5 = requests w4 ->
    (forall n, n <> file args -> files w5 n = files w4 n) ->
    (exists reqs0,
        requests w5 =
          requests w
          ++ Spec.search_request (query args) (number args) :: reqs0 /\
        length reqs0 <= 1) /\
    (forall n, n <> file args -> files w5 n = files w n)).
  { intros w5 Hr5 Hf5. split.
    - exists reqs. now rewrite Hr5, Hr4.
    - intros n Hn. now rewrite (Hf5 n Hn), Hf4. }
  destruct r4 as [[xml|]|e]; cbn [snd]; try (now apply Hend).
  destruct (Str.is_empty xml); [now apply Hend|].
  destruct (parse_paper_details fromstring xml) as [pd|e]; cbn [snd];
    [|now apply Hend].
  apply Hend; apply save_to_csv_frame.
Qed.

(** ** The writers on records of any shape *)


















(** ** The names of the authors *)

Lemma lstrip_starts_clean (s : string) : Text.starts_clean (Str.lstrip s) = true.
Proof.
  induction s as [|c s IH]; [reflexivity|].
  cbn [Str.lstrip]. destruct (Str.isspace c) eqn:E; [exact IH|].
  cbn. now rewrite E.
Qed.

Lemma rstrip_cons (c : ascii) (r : string) :
  Str.rstrip (String c r) =
    if Str.isspace c && Str.is_empty (Str.rstrip r) then ""
    else String c (Str.rstrip r).
Proof. reflexivity. Qed.

Lemma rstrip_starts_clean (s : string) :
  Text.starts_clean s = true -> Text.starts_clean (Str.rstrip s) = true.
Proof.
  destruct s as [|c s]; [reflexivity|].
  cbn [Text.starts_clean]. intros H. rewrite rstrip_cons.
  apply negb_true_iff in H. rewrite H. cbn. now rewrite H.
Qed.

Lemma rstrip_ends_clean (s : string) : Text.ends_clean (Str.rstrip s) = true.
Proof.
  induction s as [|c s IH]; [reflexivity|].
  rewrite rstrip_cons.
  destruct (Str.isspace c) eqn:Ec; cbn [andb].
  - destruct (Str.rstrip s) as [|d r] eqn:E; [reflexivity|].
    cbn [Str.is_empty]. exact IH.
  - destruct (Str.rstrip s) as [|d r] eqn:E.
    + cbn. now rewrite Ec.
    + exact IH.
Qed.

Lemma lstrip_id (s : string) :
  Text.starts_clean s = true -> Str.lstrip s = s.
Proof.
  destruct s as [|c s]; [reflexivity|].
  cbn. intros H. apply negb_true_iff in H. now rewrite H.
Qed.

Lemma rstrip_id (s : string) :
  Text.ends_clean s = true -> Str.rstrip s = s.
Proof.
  induction s as [|c s IH]; [reflexivity|].
  intros H. rewrite rstrip_cons. destruct s as [|d s].
  - cbn in H |- *. apply negb_true_iff in H. now rewrite H.
  - rewrite (IH H). cbn [Str.is_empty]. now rewrite andb_false_r.
Qed.

Lemma rstrip_snoc_space (s : string) (c : ascii) :
  Str.isspace c = true -> Str.rstrip (s +:+ String c "") = Str.rstrip s.
Proof.
  intros Hc. induction s as [|d s IH].
  - cbn. now rewrite Hc.
  - cbn [String.append]. now rewrite !rstrip_cons, IH.
Qed.

Lemma strip_snoc_space (s : string) (c : ascii) :
  Str.isspace c = true -> Str.strip (s +:+ String c "") = Str.strip s.
Proof.
  intros Hc. unfold Str.strip. induction s as [|d s IH].
  - cbn. now rewrite Hc.
  - cbn [String.append Str.lstrip]. destruct (Str.isspace d); [exact IH|].
    change (String d (s +:+ String c "")) with (String d s +:+ String c "").
    now apply rstrip_snoc_space.
Qed.

Lemma ends_clean_app (a b : string) :
  b <> "" -> Text.ends_clean (a +:+ b) = Text.ends_clean b.
Proof.
  intros Hb. induction a as [|c a IH]; [reflexivity|].
  cbn [String.append]. destruct (a +:+ b) eqn:E; [|exact IH].
  apply append_empty in E as [_ E]. contradiction.
Qed.

(** X16.  The full name of an author never starts or ends with white
    space.  Without a fore name it is the last name stripped, without a last
    name the fore name stripped; with both, neither empty nor with white
    space at its ends, it is the fore name, one space and the last name. *)
Theorem fullname_stripped (author : Element) :
  let fore := ET.findtext "ForeName" "" author in
  let last := ET.findtext "LastName" "" author in
  Text.starts_clean (fullname_of author) = true /\
  Text.ends_clean (fullname_of author) = true /\
  (fore = "" -> fullname_of author = Str.strip last) /\
  (last = "" -> fullname_of author = Str.strip fore) /\
  (fore <> "" -> last <> "" ->
   Text.starts_clean fore = true -> Text.ends_clean last = true ->
   fullname_of author = fore +:+ " " +:+ last).
Proof.
  intros fore last. unfold fullname_of. fold fore. fold last.
  repeat split.
  - apply rstrip_starts_clean, lstrip_starts_clean.
  - apply rstrip_ends_clean.
  - now intros ->.
  - intros ->. now apply strip_snoc_space.
  - intros Hf Hl Hsf Hel. unfold Str.strip.
    rewrite lstrip_id by (destruct fore; [contradiction | exact Hsf]).
    apply rstrip_id.
    rewrite ends_clean_app by discriminate.
    change (" " +:+ last) with ("" +:+ String " " last).
    destruct last; [contradiction | exact Hel].
Qed.

Lemma fullname_stripped_witness :
  fullname_of Sample.jane = "Jane" +:+ " " +:+ "Doe".
Proof.
  refine (proj2 (proj2 (proj2 (proj2 (fullname_stripped Sample.jane))))
            _ _ eq_refl eq_refl); discriminate.
Defined.

(** ** The lists of the loop over the authors *)

Lemma email_of_token (author : Element) (e : string) :
  In e (Spec.email_of author) ->
  e <> "" /\ Spec.no_space e = true /\
  exists t, Spec.affiliation_text author = Some t /\ Spec.last_token t e.
Proof.
  unfold Spec.email_of.
  destruct (Spec.affiliation_text author) as [t|]; [|contradiction].
  destruct (Str.contains "@" t); [|contradiction].
  destruct (rev (Str.split t)) as [|x l] eqn:E; [contradiction|].
  intros [<- | []].
  assert (H : Spec.last_token t x).
  { apply split_last_iff. unfold last_item. now rewrite E. }
  destruct H as [Hne [Hns Hd]] eqn:EH.
  repeat split; auto. exists t. split; [reflexivity|].
  repeat split; auto.
Qed.

Lemma email_of_short (author : Element) : length (Spec.email_of author) <= 1.
Proof.
  unfold Spec.email_of.
  destruct (Spec.affiliation_text author) as [t|]; [|cbn; lia].
  destruct (Str.contains "@" t); [|cbn; lia].
  destruct (rev (Str.split t)); cbn; lia.
Qed.

Lemma flat_map_short {A B} (f : A -> list B) (l : list A) :
  (forall a, length (f a) <= 1) -> length (flat_map f l) <= length l.
Proof.
  intros H. induction l as [|a l IH]; [cbn; lia|].
  cbn [flat_map]. rewrite length_app. specialize (H a). cbn [length]. lia.
Qed.

(** X17.  The loop over the authors, when it ends without raising, leaves
    one name for each author, in order; as many company affiliations as
    non-academic names, and no more of them than authors; every non-academic
    name among the names; and at most one email for each author. *)
Theorem author_lists_invariant (l : list Element) (st : author_lists) :
  for_each author_body l no_authors = Ok st ->
  authors st = map fullname_of l /\
  length (non_academic_authors st) = length (company_affiliations st) /\
  length (non_academic_authors st) <= length l /\
  length (emails st) <= length l /\
  (forall name, In name (non_academic_authors st) -> In name (authors st)).
Proof.
  rewrite authors_loop. destruct (forallb _ l); [|discriminate].
  intros [= <-]. unfold Spec.extend, no_authors.
  cbn [authors non_academic_authors company_affiliations emails app].
  repeat split.
  - now rewrite !length_map.
  - rewrite length_map. apply filter_length_le.
  - apply flat_map_short, email_of_short.
  - intros name H. apply in_map_iff in H as [a [<- Ha]].
    apply filter_In in Ha as [Ha _]. now apply in_map.
Qed.

Lemma author_lists_invariant_witness :
  exists st,
    for_each author_body (Spec.authors_of Sample.two_authors_article)
      no_authors = Ok st /\
    authors st = ["Ann Roe"; "Jane Doe"] /\
    length (non_academic_authors st) = length (company_affiliations st).
Proof.
  eexists. split; [reflexivity|].
  pose proof (author_lists_invariant
                (Spec.authors_of Sample.two_authors_article) _ eq_refl)
    as [Ha [Hl _]].
  split; [exact Ha | exact Hl].
Defined.

(** ** The columns that are never empty *)

(** X18.  In a record, the publication date and the email are never the
    empty string: the date is "Unknown" or starts with a year that is not
    empty; the email is "Not Available" or a token, not empty and without
    white space, of the affiliation text of an author.  The date is
    "Unknown" when the article has no PubDate or the first one has no text
    for its Year, and otherwise the text of that Year, a hyphen and the
    rest of the date. *)
Theorem record_never_empty (article : Element) (p : paper) :
  parse_article article = Ok p ->
  exists date email,
    dict_get p "Publication Date" = Some (Some date) /\
    dict_get p "Email" = Some (Some email) /\
    date <> "" /\ email <> "" /\
    ((date = "Unknown" /\
      (ET.find_desc "PubDate" article = None
       \/ exists pub_date,
            ET.find_desc "PubDate" article = Some pub_date /\
            Spec.component "Year" pub_date = ""))
     \/ (exists pub_date,
           ET.find_desc "PubDate" article = Some pub_date /\
           Spec.component "Year" pub_date <> "" /\
           date = Spec.component "Year" pub_date +:+ "-"
                  +:+ Spec.component "Month" pub_date +:+ "-"
                  +:+ Spec.component "Day" pub_date)) /\
    (email = "Not Available"
     \/ (Spec.no_space email = true /\
         exists author t,
           In author (Spec.authors_of article) /\
           Spec.affiliation_text author = Some t /\
           Spec.last_token t email)).
Proof.
  rewrite parse_article_spec.
  destruct (Spec.article_has_texts article); [|discriminate].
  intros [= <-]. unfold Spec.record_of.
  cbn [dict_get String.eqb Ascii.eqb Bool.eqb].
  do 2 eexists. split; [reflexivity|]. split; [reflexivity|].
  assert (Hdate :
    publication_date article <> "" /\
    ((publication_date article = "Unknown" /\
      (ET.find_desc "PubDate" article = None
       \/ exists pub_date,
            ET.find_desc "PubDate" article = Some pub_date /\
            Spec.component "Year" pub_date = ""))
     \/ (exists pub_date,
           ET.find_desc "PubDate" article = Some pub_date /\
           Spec.component "Year" pub_date <> "" /\
           publication_date article =
             Spec.component "Year" pub_date +:+ "-"
             +:+ Spec.component "Month" pub_date +:+ "-"
             +:+ Spec.component "Day" pub_date))).
  { unfold publication_date.
    destruct (ET.find_desc "PubDate" article) as [pd|];
      [|split; [discriminate | left; split; [reflexivity | now left]]].
    rewrite !findtext_component.
    destruct (Str.is_empty (Spec.component "Year" pd)) eqn:E.
    - apply is_empty_true in E.
      split; [discriminate | left; split; [reflexivity | right; eauto]].
    - apply is_empty_false in E. split.
      + destruct (Spec.component "Year" pd); [contradiction | discriminate].
      + right. exists pd. auto. }
  destruct Hdate as [Hd1 Hd2].
  assert (Hemail : forall st : author_lists, emails st = [] ->
    let email :=
      match emails (Spec.extend st (Spec.authors_of article)) with
      | [] => "Not Available"
      | e :: _ => e
      end in
    email <> "" /\
    (email = "Not Available"
     \/ (Spec.no_space email = true /\
         exists author t,
           In author (Spec.authors_of article) /\
           Spec.affiliation_text author = Some t /\
           Spec.last_token t email))).
  { intros st Hst. unfold Spec.extend. cbn [emails]. rewrite Hst. cbn [app].
    destruct (flat_map Spec.email_of (Spec.authors_of article))
      as [|e es] eqn:E.
    + split; [discriminate | now left].
    + assert (Hin : In e (flat_map Spec.email_of (Spec.authors_of article)))
        by (rewrite E; now left).
      apply in_flat_map in Hin as [a [Ha He]].
      destruct (email_of_token a e He) as [Hne [Hns [t [Ht Hl]]]].
      split; [exact Hne|]. right. split; [exact Hns|]. eauto. }
  destruct (Hemail no_authors eq_refl) as [He1 He2].
  split; [exact Hd1|]. split; [exact He1|]. split; [exact Hd2 | exact He2].
Qed.

Lemma record_never_empty_witness :
  exists date email,
    dict_get (Spec.record_of Sample.dated_article) "Publication Date"
      = Some (Some date) /\
    dict_get (Spec.record_of Sample.dated_article) "Email"
      = Some (Some email) /\
    date <> "" /\ email <> "".
Proof.
  destruct (record_never_empty Sample.dated_article
              (Spec.record_of Sample.dated_article) eq_refl)
    as [date [email [Hd [He [Hnd [Hne _]]]]]].
  exists date, email. auto.
Defined.

(** ** The key words, whatever the case *)

Lemma lower_app (a b : string) :
  Str.lower (a +:+ b) = Str.lower a +:+ Str.lower b.
Proof. induction a as [|c a IH]; cbn; [reflexivity | now rewrite IH]. Qed.

Lemma lower_split (a : string) : forall (t b : string),
  Str.lower t = a +:+ b ->
  exists a' b', t = a' +:+ b' /\ Str.lower a' = a /\ Str.lower b' = b.
Proof.
  induction a as [|c a IH]; intros t b H.
  - exists "", t. auto.
  - destruct t as [|d t]; [discriminate|].
    cbn in H. injection H as Hc H.
    destruct (IH t b H) as [a' [b' [-> [Ha Hb]]]].
    exists (String d a'), b'. cbn. now rewrite Hc, Ha.
Qed.

(** X19.  The match of the key words does not depend on the case of the
    letters: an affiliation text is taken for a company exactly when some
    part of it, lower-cased, is one of "company", "pharma", "biotech". *)
Theorem keyword_any_case (t : string) :
  any_keyword t = true <->
  exists pre u post,
    t = pre +:+ u +:+ post /\ In (Str.lower u) keywords.
Proof.
  rewrite any_keyword_mentions. unfold Spec.mentions_company, Spec.occurs_in.
  split.
  - intros H.
    assert (Hk : exists k pre post,
               In k keywords /\ Str.lower t = pre +:+ k +:+ post).
    { destruct H as [[pre [post E]] | [[pre [post E]] | [pre [post E]]]];
        eexists; exists pre, post; (split; [|exact E]); cbn; auto. }
    destruct Hk as [k [pre [post [Hin Hl]]]].
    apply lower_split in Hl as [pre' [r [-> [Hpre Hr]]]].
    apply lower_split in Hr as [u [post' [-> [Hu Hpost]]]].
    exists pre', u, post'. split; [reflexivity|]. now rewrite Hu.
  - intros [pre [u [post [-> Hin]]]]. rewrite !lower_app.
    cbn [keywords In] in Hin.
    destruct Hin as [<- | [<- | [<- | []]]]; eauto 6.
Qed.

(** ** The records of a document *)

(** X20.  When every Affiliation read in a document has text, the
    extraction returns, and it returns one record for each PubmedArticle
    element beneath the root, in document order, each with the seven keys;
    when some Affiliation read has no text it returns no record at all,
    whatever the other articles. *)
Theorem extraction_all_or_nothing (root : Element) :
  (forallb Spec.article_has_texts (Spec.articles_of root) = true ->
   exists papers,
     parse_root root = Ok papers /\
     length papers = Spec.count_below "PubmedArticle" root /\
     papers = map Spec.record_of (Spec.articles_of root) /\
     Forall (fun p => dict_keys p = Spec.record_keys) papers) /\
  (forallb Spec.article_has_texts (Spec.articles_of root) = false ->
   parse_root root = Raise TypeError).
Proof.
  rewrite parse_root_spec. split; intros ->; [|reflexivity].
  eexists. split; [reflexivity|]. repeat split.
  - rewrite length_map. apply length_descendants.
  - apply Forall_map, Forall_forall. intros a _. apply record_of_keys.
Qed.

Lemma extraction_all_or_nothing_witness :
  exists papers,
    parse_root Run.doc = Ok papers /\
    length papers = 2 /\
    papers = map Spec.record_of (Spec.articles_of Run.doc) /\
    Forall (fun p => dict_keys p = Spec.record_keys) papers.
Proof.
  exact (proj1 (extraction_all_or_nothing Run.doc) eq_refl).
Defined.
